(** * fastapi-auth: token lifecycle and credential verification

    A shallow embedding of [src/core/security.py], [src/core/config.py],
    [src/auth/exceptions.py], [src/auth/service.py], [src/auth/router.py],
    [src/core/dependencies.py] and [src/users/crud.py], followed by the
    properties of the login, refresh and token-verification flows.

    Conventions.
    - A Python function that may raise returns a [result]; [Raise e] carries
      the exception.
    - Calls into the password hasher are recorded in a trace (monad [M]), so
      that one can tell which paths reach the hasher.
    - Every reading of the wall clock is an explicit [datetime] argument.
    - A Python [str] is represented by its UTF-8 encoding, one [ascii] per
      byte; [py_len] counts its characters.
    - The third-party codecs (python-jose, pydantic, passlib) are interfaces
      ([Class]); their functional contracts are stated as propositions and a
      reference implementation on strings shows the contracts are met. *)

From Stdlib Require Import ZArith List String Ascii Bool Lia.
From Stdlib Require Import DecimalString DecimalZ.
From Stdlib Require Import Permutation.
Import ListNotations.

Local Open Scope string_scope.
Local Open Scope Z_scope.

(* ================================================================== *)
(** ** Exceptions and results *)

(** The classes of [src/auth/exceptions.py], plus FastAPI's base class. *)
Inductive exception_class :=
| Cls_HTTPException
| Cls_AuthenticationError
| Cls_AuthorizationError
| Cls_InactiveUserError
| Cls_InvalidTokenError.

Definition HTTP_401_UNAUTHORIZED : Z := 401.
Definition HTTP_403_FORBIDDEN : Z := 403.
Definition HTTP_404_NOT_FOUND : Z := 404.

(** What an [HTTPException] instance carries to the transport layer. *)
Record http_exception := {
  cls : exception_class;
  status_code : Z;
  detail : string;
  headers : option (list (string * string))
}.

(** [HTTPException(status_code=..., detail=..., headers=...)]. *)
Definition HTTPException (status : Z) (d : string)
    (h : option (list (string * string))) : http_exception :=
  {| cls := Cls_HTTPException; status_code := status; detail := d; headers := h |}.

(** [class AuthenticationError(HTTPException)]. *)
Definition AuthenticationError (d : string) : http_exception :=
  {| cls := Cls_AuthenticationError;
     status_code := HTTP_401_UNAUTHORIZED;
     detail := d;
     headers := Some [("WWW-Authenticate", "Bearer")] |}.

(** [class AuthorizationError(HTTPException)]. *)
Definition AuthorizationError (d : string) : http_exception :=
  {| cls := Cls_AuthorizationError;
     status_code := HTTP_403_FORBIDDEN;
     detail := d;
     headers := None |}.

(** [class InactiveUserError(AuthenticationError)]: its constructor calls
    [super().__init__(detail="Inactive user account")]. *)
Definition InactiveUserError : http_exception :=
  let base := AuthenticationError "Inactive user account" in
  {| cls := Cls_InactiveUserError;
     status_code := status_code base;
     detail := detail base;
     headers := headers base |}.

(** [class InvalidTokenError(AuthenticationError)]. *)
Definition InvalidTokenError (d : string) : http_exception :=
  let base := AuthenticationError d in
  {| cls := Cls_InvalidTokenError;
     status_code := status_code base;
     detail := detail base;
     headers := headers base |}.

(** Exceptions that travel through the modelled code. *)
Inductive exn :=
| JWTError (msg : string)            (* jose.JWTError *)
| ValueError (literal : string)      (* int() on a text that is no integer *)
| UnknownHashError (hash : string)   (* passlib: hash could not be identified *)
| PasswordSizeError                  (* passlib: secret above the size cap *)
| HTTPError (e : http_exception).    (* fastapi.HTTPException and subclasses *)

Inductive result (A : Type) :=
| Ok (a : A)
| Raise (e : exn).
Arguments Ok {A} a.
Arguments Raise {A} e.

Definition rbind {A B} (r : result A) (k : A -> result B) : result B :=
  match r with
  | Ok a => k a
  | Raise e => Raise e
  end.

(** Calls into [pwd_context]. *)
Inductive event :=
| PwdHash (secret : string)
| PwdVerify (secret hash : string).

(** Computations that may call the hasher and may raise. *)
Definition M (A : Type) : Type := (list event * result A)%type.

Definition ret {A} (a : A) : M A := ([], Ok a).
Definition raise {A} (e : exn) : M A := ([], Raise e).
Definition emit (ev : event) : M unit := ([ev], Ok tt).
Definition lift {A} (r : result A) : M A := ([], r).

Definition bind {A B} (m : M A) (k : A -> M B) : M B :=
  match snd m with
  | Ok a => (fst m ++ fst (k a), snd (k a))%list
  | Raise e => (fst m, Raise e)
  end.

Notation "x <- m ;; k" := (bind m (fun x => k))
  (at level 61, m at next level, right associativity).

Definition trace {A} (m : M A) : list event := fst m.
Definition outcome {A} (m : M A) : result A := snd m.

(* ================================================================== *)
(** ** Python built-ins: [str(int)] and [int(str)] *)

(** [len(s)] for a [str]: the characters, that is the bytes of the
    encoding that are not continuation bytes (binary 10xxxxxx). *)
Definition is_continuation (a : ascii) : bool :=
  let n := nat_of_ascii a in
  (128 <=? n)%nat && (n <? 192)%nat.

Fixpoint py_len (s : string) : nat :=
  match s with
  | EmptyString => O
  | String a r => if is_continuation a then py_len r else S (py_len r)
  end.

Definition is_ascii (a : ascii) : bool := (nat_of_ascii a <? 128)%nat.

(** [str(n)] for an [int]: decimal digits, a leading minus for negatives. *)
Definition str_of_int (n : Z) : string := NilZero.string_of_int (Z.to_int n).

(** The ASCII characters [int()] skips at both ends. *)
Definition is_space (a : ascii) : bool :=
  let n := nat_of_ascii a in
  ((9 <=? n)%nat && (n <=? 13)%nat) || (n =? 32)%nat.

Definition is_digit (a : ascii) : bool :=
  let n := nat_of_ascii a in
  (48 <=? n)%nat && (n <=? 57)%nat.

Fixpoint lstrip (s : string) : string :=
  match s with
  | String a r => if is_space a then lstrip r else s
  | EmptyString => EmptyString
  end.

Fixpoint rstrip (s : string) : string :=
  match s with
  | String a r =>
      match rstrip r with
      | EmptyString => if is_space a then EmptyString else String a EmptyString
      | r' => String a r'
      end
  | EmptyString => EmptyString
  end.

Definition strip (s : string) : string := rstrip (lstrip s).

(** The digits of a base-10 literal: one underscore may sit between two
    digits; [prev] tells whether the previous character was a digit. *)
Fixpoint literal_digits (prev : bool) (s : string) : option string :=
  match s with
  | EmptyString => if prev then Some EmptyString else None
  | String a r =>
      if is_digit a then option_map (String a) (literal_digits true r)
      else if Ascii.eqb a "_" then
        (if prev then literal_digits false r else None)
      else None
  end.

Definition nat_literal (s : string) : option Z :=
  match literal_digits false s with
  | Some ds => option_map Z.of_uint (NilEmpty.uint_of_string ds)
  | None => None
  end.

(** [int(s)] for a [str] in base 10: surrounding whitespace, an optional
    sign, then the digits. [None] stands for [ValueError]. This is
    Python's [int] on the texts [plain_text] below describes: decimal
    digits and whitespace outside ASCII, which Python also accepts, and
    the interpreter's cap of 4300 digits on a literal are not modelled. *)
Definition int_of_str (s : string) : option Z :=
  match strip s with
  | String a r =>
      if Ascii.eqb a "-" then option_map Z.opp (nat_literal r)
      else if Ascii.eqb a "+" then nat_literal r
      else nat_literal (String a r)
  | EmptyString => None
  end.

(** The texts on which [int_of_str] is Python's [int]: ASCII only, and
    short enough for the default cap on the digits of a literal. *)
Fixpoint all_ascii (s : string) : bool :=
  match s with
  | EmptyString => true
  | String a r => is_ascii a && all_ascii r
  end.

Definition plain_text (s : string) : Prop :=
  all_ascii s = true /\ (String.length s <= 4300)%nat.

(** [int(s)] as the callers use it: the failure is a [ValueError]. *)
Definition py_int (s : string) : result Z :=
  match int_of_str s with
  | Some n => Ok n
  | None => Raise (ValueError s)
  end.

(* ================================================================== *)
(** ** [src/core/config.py] *)

(** The JWT part of [Settings]; every field can be set from the
    environment, so the functions below take the record as an argument. *)
Record Settings := {
  SECRET_KEY : string;
  ALGORITHM : string;
  ACCESS_TOKEN_EXPIRE_MINUTES : Z;
  REFRESH_TOKEN_EXPIRE_DAYS : Z
}.

(** The defaults written in the class body. *)
Definition default_settings : Settings :=
  {| SECRET_KEY :=
       "your-secret-key-change-in-production-minimum-32-characters-required";
     ALGORITHM := "HS256";
     ACCESS_TOKEN_EXPIRE_MINUTES := 30;
     REFRESH_TOKEN_EXPIRE_DAYS := 7 |}.

(** [Settings.__init__]: a key shorter than 32 characters is fatal. [None]
    stands for the [ValueError] that stops the process at import time. *)
Definition Settings_init (s : Settings) : option Settings :=
  if (py_len (SECRET_KEY s) <? 32)%nat then None else Some s.

(* ================================================================== *)
(** ** Time *)

(** A [datetime] in UTC, as microseconds since the epoch (the resolution
    of Python's [datetime]). *)
Definition datetime := Z.

Definition timedelta_minutes (m : Z) : Z := m * 60 * 1000000.
Definition timedelta_days (d : Z) : Z := d * 86400 * 1000000.

(** [int(dt.timestamp())]: whole seconds, truncated towards zero.
    [timestamp()] returns a float: its truncation is the exact quotient
    for the clock readings of [clock_in_range]; from 2^34 seconds on the
    float can round up to the next whole second, which this definition
    does not follow. *)
Definition int_timestamp (dt : datetime) : Z := Z.quot dt 1000000.

(** Clock readings from the epoch to below 2^34 seconds (year 2514), on
    which [int_timestamp] is what the code computes. *)
Definition clock_in_range (dt : datetime) : Prop :=
  0 <= dt < 17179869184 * 1000000.

(** [timegm(dt.utctimetuple())], the clock as python-jose reads it: the
    time tuple drops the microseconds. *)
Definition timegm_utc (dt : datetime) : Z := dt / 1000000.

(* ================================================================== *)
(** ** JSON claims *)

(** The JSON members considered: text and integers, the two member types
    [TokenPayload] declares. *)
Inductive json :=
| JStr (s : string)
| JInt (n : Z).

(** A claims object; keys are unique in a well-formed one ([claims_wf]). *)
Definition claims := list (string * json).

Fixpoint get (k : string) (c : claims) : option json :=
  match c with
  | [] => None
  | (k', v) :: r => if String.eqb k' k then Some v else get k r
  end.

Fixpoint mem (k : string) (l : list string) : bool :=
  match l with
  | [] => false
  | k' :: r => String.eqb k' k || mem k r
  end.

Fixpoint distinct (l : list string) : bool :=
  match l with
  | [] => true
  | k :: r => negb (mem k r) && distinct r
  end.

Definition claims_wf (c : claims) : bool := distinct (map fst c).

(* ================================================================== *)
(** ** Third-party interfaces *)

(** python-jose's compact JWS serialisation, at the algorithm configured
    in [Settings.ALGORITHM]: [jws_sign c key] is the signed token for the
    claims [c] (with a supported algorithm and claims that serialise to
    JSON, as here, signing does not fail); [jws_verify tok key] returns
    the claims of a token whose signature verifies, or the text of the
    [JWSError]. *)
Class Jose := {
  jws_sign : claims -> string -> string;
  jws_verify : string -> string -> string + claims
}.

(** Contract of the serialisation: a token verifies under the key that
    signed it and yields the signed claims. *)
Definition jose_contract (J : Jose) : Prop :=
  forall (c : claims) (key : string),
    claims_wf c = true -> jws_verify (jws_sign c key) key = inr c.

(** What pydantic contributes beyond the field types: the lax-mode
    conversion of a text to an [int] field, and the text of a
    [ValidationError]. *)
Class Pydantic := {
  str_as_int : string -> option Z;
  validation_error_str : claims -> string
}.

(** passlib's [CryptContext(schemes=["argon2"])]: the key-derivation
    function (salt, secret -> digest) and the modular-crypt string that
    stores salt and digest. [phc_parse] is [None] on a string that is not
    such a hash. *)
Class Passlib := {
  kdf : string -> string -> string;
  phc_format : string -> string -> string;
  phc_parse : string -> option (string * string)
}.


(* ================================================================== *)
(** ** python-jose: [jwt.encode] and [jwt.decode] *)

(** Python's [int(v)] on a claim value. *)
Definition claim_int (v : json) : option Z :=
  match v with
  | JInt n => Some n
  | JStr s => int_of_str s
  end.

Definition is_JStr (v : json) : bool :=
  match v with
  | JStr _ => true
  | JInt _ => false
  end.

(** [_validate_iat]: when present, the claim must convert to an integer. *)
Definition validate_iat (c : claims) : option string :=
  match get "iat" c with
  | None => None
  | Some v =>
      match claim_int v with
      | Some _ => None
      | None => Some "Issued At claim (iat) must be an integer."
      end
  end.

(** [_validate_nbf], with the default leeway 0. *)
Definition validate_nbf (c : claims) (now : Z) : option string :=
  match get "nbf" c with
  | None => None
  | Some v =>
      match claim_int v with
      | None => Some "Not Before claim (nbf) must be an integer."
      | Some nbf =>
          if now <? nbf then Some "The token is not yet valid (nbf)" else None
      end
  end.

(** [_validate_exp], with the default leeway 0: the library raises
    [ExpiredSignatureError] when [exp < now]. *)
Definition validate_exp (c : claims) (now : Z) : option string :=
  match get "exp" c with
  | None => None
  | Some v =>
      match claim_int v with
      | None => Some "Expiration Time claim (exp) must be an integer."
      | Some exp => if exp <? now then Some "Signature has expired." else None
      end
  end.

(** [_validate_aud] when the caller passes no audience, as [decode_token]
    does: a token that names an audience is refused. *)
Definition validate_aud (c : claims) : option string :=
  match get "aud" c with
  | None => None
  | Some (JStr _) => Some "Invalid audience"
  | Some (JInt _) => Some "Invalid claim format in token"
  end.

(** [_validate_sub] when the caller passes no subject. *)
Definition validate_sub (c : claims) : option string :=
  match get "sub" c with
  | None => None
  | Some v => if is_JStr v then None else Some "Subject must be a string."
  end.

(** [_validate_jti]. *)
Definition validate_jti (c : claims) : option string :=
  match get "jti" c with
  | None => None
  | Some v => if is_JStr v then None else Some "JWT ID must be a string."
  end.

(** [_validate_at_hash] when the caller passes no access token. *)
Definition validate_at_hash (c : claims) : option string :=
  match get "at_hash" c with
  | None => None
  | Some _ =>
      Some "No access_token provided to compare against at_hash claim."
  end.

(** The first failing check, in the library's order; [_validate_iss] does
    nothing when the caller passes no issuer. *)
Fixpoint first_error (checks : list (option string)) : option string :=
  match checks with
  | [] => None
  | Some msg :: _ => Some msg
  | None :: r => first_error r
  end.

(** [_validate_claims] under the default options. *)
Definition validate_claims (c : claims) (now : Z) : option string :=
  first_error
    [ validate_iat c; validate_nbf c now; validate_exp c now;
      validate_aud c; validate_sub c; validate_jti c; validate_at_hash c ].

Section Security.

Context {J : Jose} {Py : Pydantic} {P : Passlib}.
Variable settings : Settings.

(** [jwt.encode(payload, key, algorithm=...)]. *)
Definition jwt_encode (payload : claims) (key : string) : string :=
  jws_sign payload key.

(** [jwt.decode(token, key, algorithms=[...])] when the library's clock
    reads [now]: signature first, then the registered claims. Every
    failure is a [JWTError] (or one of its subclasses). *)
Definition jwt_decode (token key : string) (now : datetime) : result claims :=
  match jws_verify token key with
  | inl msg => Raise (JWTError msg)
  | inr c =>
      match validate_claims c (timegm_utc now) with
      | Some msg => Raise (JWTError msg)
      | None => Ok c
      end
  end.

(* ================================================================== *)
(** ** [src/core/security.py] *)

(** [Literal["access", "refresh"]]. *)
Inductive token_type := Access | Refresh.

Definition token_type_str (t : token_type) : string :=
  match t with
  | Access => "access"
  | Refresh => "refresh"
  end.

Definition token_type_of_str (s : string) : option token_type :=
  if String.eqb s "access" then Some Access
  else if String.eqb s "refresh" then Some Refresh
  else None.

Definition token_type_eqb (a b : token_type) : bool :=
  match a, b with
  | Access, Access | Refresh, Refresh => true
  | _, _ => false
  end.

(** [class TokenPayload(BaseModel)]. *)
Record TokenPayload := {
  sub : string;
  exp : Z;
  iat : Z;
  type : token_type
}.

(** pydantic's validation of an [int] field. *)
Definition int_field (v : json) : option Z :=
  match v with
  | JInt n => Some n
  | JStr s => str_as_int s
  end.

(** [TokenPayload] built from the members of [payload] as keyword
    arguments: the four fields are required, [sub] must be
    text, [type] one of the two literals; other members are ignored.
    [None] stands for [ValidationError]. *)
Definition TokenPayload_validate (payload : claims) : option TokenPayload :=
  match get "sub" payload, get "exp" payload,
        get "iat" payload, get "type" payload with
  | Some (JStr s), Some e, Some i, Some (JStr t) =>
      match int_field e, int_field i, token_type_of_str t with
      | Some e', Some i', Some t' =>
          Some {| sub := s; exp := e'; iat := i'; type := t' |}
      | _, _, _ => None
      end
  | _, _, _, _ => None
  end.

(** The payload dictionary both minting functions build. *)
Definition token_claims (user_id : Z) (expires_at now : datetime)
    (t : token_type) : claims :=
  [ ("sub", JStr (str_of_int user_id));
    ("exp", JInt (int_timestamp expires_at));
    ("iat", JInt (int_timestamp now));
    ("type", JStr (token_type_str t)) ].

(** [create_access_token(user_id)], the clock reading [now]. *)
Definition create_access_token (now : datetime) (user_id : Z) : string :=
  let expires_at :=
    now + timedelta_minutes (ACCESS_TOKEN_EXPIRE_MINUTES settings) in
  let payload := token_claims user_id expires_at now Access in
  let encoded_jwt := jwt_encode payload (SECRET_KEY settings) in
  encoded_jwt.

(** [create_refresh_token(user_id)], the clock reading [now]. *)
Definition create_refresh_token (now : datetime) (user_id : Z) : string :=
  let expires_at :=
    now + timedelta_days (REFRESH_TOKEN_EXPIRE_DAYS settings) in
  let payload := token_claims user_id expires_at now Refresh in
  let encoded_jwt := jwt_encode payload (SECRET_KEY settings) in
  encoded_jwt.

(** [decode_token(token, expected_type)], the clock reading [now] inside
    [jwt.decode]. *)
Definition decode_token (token : string) (expected_type : token_type)
    (now : datetime) : result TokenPayload :=
  match jwt_decode token (SECRET_KEY settings) now with
  | Raise (JWTError e) => Raise (JWTError ("Invalid token: " ++ e))
  | Raise other => Raise other
  | Ok payload =>
      match TokenPayload_validate payload with
      | None =>
          Raise (JWTError ("Invalid token payload: "
                           ++ validation_error_str payload))
      | Some token_payload =>
          if negb (token_type_eqb (type token_payload) expected_type) then
            Raise (JWTError ("Invalid token type. Expected "
                             ++ token_type_str expected_type ++ ", got "
                             ++ token_type_str (type token_payload)))
          else Ok token_payload
      end
  end.

(** passlib's cap on the characters of a secret (its default). *)
Definition MAX_PASSWORD_SIZE : nat := 4096.

Definition oversize (secret : string) : bool :=
  (MAX_PASSWORD_SIZE <? py_len secret)%nat.

(** [pwd_context.hash(secret)] with the salt the library draws: a secret
    above the size cap raises [PasswordSizeError]. *)
Definition pwd_context_hash (salt secret : string) : result string :=
  if oversize secret then Raise PasswordSizeError
  else Ok (phc_format salt (kdf salt secret)).

(** [hash_password(password)]; [salt] is the salt [pwd_context.hash]
    draws for this call. *)
Definition hash_password (salt password : string) : M string :=
  _ <- emit (PwdHash password) ;;
  lift (pwd_context_hash salt password).

(** [pwd_context.verify(secret, hash)]: the hash is identified first and
    a string that is no hash of the scheme raises; then a secret above
    the size cap raises [PasswordSizeError]; otherwise the digest is
    recomputed under the stored salt and compared. *)
Definition pwd_context_verify (secret hash : string) : result bool :=
  match phc_parse hash with
  | None => Raise (UnknownHashError hash)
  | Some (salt, digest) =>
      if oversize secret then Raise PasswordSizeError
      else Ok (String.eqb (kdf salt secret) digest)
  end.

(** [verify_password(plain_password, hashed_password)]. *)
Definition verify_password (plain_password hashed_password : string) : M bool :=
  _ <- emit (PwdVerify plain_password hashed_password) ;;
  lift (pwd_context_verify plain_password hashed_password).

(** The two minting functions by kind, and their lifetimes. *)
Definition mint (k : token_type) (now : datetime) (user_id : Z) : string :=
  match k with
  | Access => create_access_token now user_id
  | Refresh => create_refresh_token now user_id
  end.

Definition TTL (k : token_type) : Z :=
  match k with
  | Access => timedelta_minutes (ACCESS_TOKEN_EXPIRE_MINUTES settings)
  | Refresh => timedelta_days (REFRESH_TOKEN_EXPIRE_DAYS settings)
  end.

(* ================================================================== *)
(** ** [src/users/models.py], [src/users/crud.py] *)

(** The columns of [User] the flows read. *)
Record User := {
  id : Z;
  email : string;
  hashed_password : string;
  is_active : bool
}.

(** The rows of the [users] table. *)
Definition Db := list User.

(** [select(User).where(User.email == email)], then [.first()]. *)
Definition get_user_by_email (db : Db) (e : string) : option User :=
  find (fun u => String.eqb (email u) e) db.

(** [select(User).where(User.id == user_id)], then [.first()]. This is
    the answer of the query for an id the driver can bind to the
    [Integer] column ([id_in_range]); for an id outside that range the
    driver raises instead, which this definition does not follow. *)
Definition get_user_by_id (db : Db) (user_id : Z) : option User :=
  find (fun u => Z.eqb (id u) user_id) db.

(** The ids every driver binds to an [Integer] column (32-bit signed). *)
Definition id_in_range (user_id : Z) : Prop :=
  -2147483648 <= user_id <= 2147483647.


(* ================================================================== *)
(** ** [src/core/schemas.py] *)

Record Token := {
  access_token : string;
  refresh_token : string;
  token_type_field : string
}.

(** [Token(access_token=..., refresh_token=...)]; [token_type] defaults
    to ["bearer"]. *)
Definition mkToken (a r : string) : Token :=
  {| access_token := a; refresh_token := r; token_type_field := "bearer" |}.

(* ================================================================== *)
(** ** [src/auth/service.py] *)

(** [authenticate_user(db, email, password)]. *)
Definition authenticate_user (db : Db) (e password : string) : M (option User) :=
  let user := get_user_by_email db e in
  match user with
  | None => ret None
  | Some u =>
      ok <- verify_password password (hashed_password u) ;;
      if negb ok then ret None else ret (Some u)
  end.

(** [login_user(db, email, password)]; the two minting calls read the
    clock one after the other ([now_access], [now_refresh]). *)
Definition login_user (db : Db) (now_access now_refresh : datetime)
    (e password : string) : M Token :=
  user <- authenticate_user db e password ;;
  match user with
  | None => raise (HTTPError (AuthenticationError "Invalid email or password"))
  | Some u =>
      if negb (is_active u) then raise (HTTPError InactiveUserError)
      else
        let access_token := create_access_token now_access (id u) in
        let refresh_token := create_refresh_token now_refresh (id u) in
        ret (mkToken access_token refresh_token)
  end.

(* ================================================================== *)
(** ** [src/core/dependencies.py] *)

Definition bearer_headers : option (list (string * string)) :=
  Some [("WWW-Authenticate", "Bearer")].

(** [get_current_user(token, db)]: only [JWTError] is caught around
    [decode_token]; [int(token_payload.sub)] runs after the handler. *)
Definition get_current_user (db : Db) (now : datetime) (token : string)
    : result User :=
  match decode_token token Access now with
  | Raise (JWTError e) =>
      Raise (HTTPError (HTTPException HTTP_401_UNAUTHORIZED e bearer_headers))
  | Raise other => Raise other
  | Ok token_payload =>
      rbind (py_int (sub token_payload)) (fun user_id =>
      match get_user_by_id db user_id with
      | None =>
          Raise (HTTPError (HTTPException HTTP_404_NOT_FOUND "User not found" None))
      | Some user => Ok user
      end)
  end.

(** [get_current_active_user(user)]. *)
Definition get_current_active_user (user : User) : result User :=
  if negb (is_active user) then
    Raise (HTTPError (HTTPException HTTP_403_FORBIDDEN "Inactive user account" None))
  else Ok user.

(* ================================================================== *)
(** ** [src/auth/router.py] *)

(** [get_current_user_for_logout(token, db)]. *)
Definition get_current_user_for_logout (db : Db) (now : datetime)
    (token : string) : result User :=
  match decode_token token Access now with
  | Raise (JWTError e) =>
      Raise (HTTPError (HTTPException HTTP_401_UNAUTHORIZED e bearer_headers))
  | Raise other => Raise other
  | Ok token_payload =>
      rbind (py_int (sub token_payload)) (fun user_id =>
      match get_user_by_id db user_id with
      | None =>
          Raise (HTTPError (HTTPException HTTP_404_NOT_FOUND "User not found" None))
      | Some user =>
          if negb (is_active user) then
            Raise (HTTPError
                     (HTTPException HTTP_403_FORBIDDEN "Inactive user account" None))
          else Ok user
      end)
  end.

(** [login(request, request_data, db)]. *)
Definition login (db : Db) (now_access now_refresh : datetime)
    (e password : string) : M Token :=
  login_user db now_access now_refresh e password.

(** [refresh(request_data, db)] on [request_data.refresh_token = token]:
    [except Exception] catches whatever [decode_token] raises;
    [int(token_payload.sub)] runs after the handler. [now] is the clock
    inside [decode_token], [now_mint] the one inside
    [create_access_token]. *)
Definition refresh (db : Db) (now now_mint : datetime)
    (token : string) : result Token :=
  match decode_token token Refresh now with
  | Raise _ =>
      Raise (HTTPError (HTTPException HTTP_401_UNAUTHORIZED
                          "Invalid or expired refresh token" None))
  | Ok token_payload =>
      rbind (py_int (sub token_payload)) (fun user_id =>
      match get_user_by_id db user_id with
      | None =>
          Raise (HTTPError (HTTPException HTTP_401_UNAUTHORIZED
                              "User no longer exists or is inactive" None))
      | Some user =>
          if negb (is_active user) then
            Raise (HTTPError (HTTPException HTTP_401_UNAUTHORIZED
                                "User no longer exists or is inactive" None))
          else
            let new_access_token := create_access_token now_mint (id user) in
            Ok (mkToken new_access_token token)
      end)
  end.

End Security.

Arguments TTL settings k : simpl never.

(* ================================================================== *)
(** ** A reference implementation of the three interfaces

    Executable stand-ins on strings, used to evaluate the flows on
    concrete inputs and to show that the contracts can be met. A token is
    a sequence of text fields, the signature first; a hash stores its salt
    and its digest. *)

Module Ref.

(** One text field: every character behind a colon, a full stop at the
    end. *)
Fixpoint enc_str (s : string) : string :=
  match s with
  | EmptyString => "."
  | String a r => String ":" (String a (enc_str r))
  end.

Fixpoint enc_strs (l : list string) : string :=
  match l with
  | [] => EmptyString
  | x :: r => enc_str x ++ enc_strs r
  end.

Fixpoint dec_strs (s : string) : option (list string) :=
  match s with
  | EmptyString => Some []
  | String a r =>
      if Ascii.eqb a "." then option_map (cons EmptyString) (dec_strs r)
      else if Ascii.eqb a ":" then
        match r with
        | String b r' =>
            match dec_strs r' with
            | Some (x :: l) => Some (String b x :: l)
            | _ => None
            end
        | EmptyString => None
        end
      else None
  end.

(** Claims as a flat list of fields: key, type tag, value. *)
Fixpoint fields_of_claims (c : claims) : list string :=
  match c with
  | [] => []
  | (k, JStr s) :: r => k :: "s" :: s :: fields_of_claims r
  | (k, JInt n) :: r => k :: "i" :: str_of_int n :: fields_of_claims r
  end.

Fixpoint claims_of_fields (l : list string) : option claims :=
  match l with
  | [] => Some []
  | k :: tag :: v :: r =>
      match claims_of_fields r with
      | None => None
      | Some c =>
          if String.eqb tag "s" then Some ((k, JStr v) :: c)
          else if String.eqb tag "i" then
            option_map (fun n => (k, JInt n) :: c) (int_of_str v)
          else None
      end
  | _ => None
  end.

(** The stand-in for the keyed signature. *)
Definition mac (key msg : string) : string := enc_strs [key; msg].

Definition sign (c : claims) (key : string) : string :=
  let body := fields_of_claims c in
  enc_strs (mac key (enc_strs body) :: body).

Definition verify (token key : string) : string + claims :=
  match dec_strs token with
  | Some (sig :: body) =>
      if String.eqb sig (mac key (enc_strs body)) then
        match claims_of_fields body with
        | Some c => inr c
        | None => inl "Invalid payload string"
        end
      else inl "Signature verification failed."
  | _ => inl "Not enough segments"
  end.

#[export] Instance jose : Jose := {| jws_sign := sign; jws_verify := verify |}.

#[export] Instance pydantic : Pydantic :=
  {| str_as_int := int_of_str;
     validation_error_str := fun _ => "validation error for TokenPayload" |}.

#[export] Instance passlib : Passlib :=
  {| kdf := fun salt secret => enc_strs [salt; secret];
     phc_format := fun salt digest => enc_strs [salt; digest];
     phc_parse := fun h =>
       match dec_strs h with
       | Some [salt; digest] => Some (salt, digest)
       | _ => None
       end |}.

End Ref.

(* ================================================================== *)
(** ** Auxiliary definitions for the statements *)

(** Every character of [s] satisfies [f]. *)
Fixpoint all_chars (f : ascii -> bool) (s : string) : bool :=
  match s with
  | EmptyString => true
  | String a r => f a && all_chars f r
  end.

(** A claims object with the four members of [TokenPayload], as any
    holder of the signing key can sign it. *)
Definition signed_claims (s : string) (e i : Z) (k : token_type) : claims :=
  [ ("sub", JStr s); ("exp", JInt e); ("iat", JInt i);
    ("type", JStr (token_type_str k)) ].

(** The responses of the refresh endpoint on failure. *)
Definition refresh_token_error : exn :=
  HTTPError (HTTPException HTTP_401_UNAUTHORIZED
               "Invalid or expired refresh token" None).

Definition refresh_user_error : exn :=
  HTTPError (HTTPException HTTP_401_UNAUTHORIZED
               "User no longer exists or is inactive" None).

(** The generic credential failure of the login flow. *)
Definition invalid_credentials : exn :=
  HTTPError (AuthenticationError "Invalid email or password").

(** A password one character above the hasher's size cap. *)
Fixpoint repeat_char (a : ascii) (n : nat) : string :=
  match n with
  | O => EmptyString
  | S m => String a (repeat_char a m)
  end.

Definition oversize_password : string := repeat_char "a" 4097.

(** A small user table for concrete evaluations: one active and one
    inactive account, both with password [SecurePass], and one row whose
    stored hash is not a hash. *)
Definition sample_hash : string :=
  @phc_format Ref.passlib "NaCl" (@kdf Ref.passlib "NaCl" "SecurePass").

Definition sample_db : Db :=
  [ {| id := 1; email := "a@x.com";
       hashed_password := sample_hash; is_active := true |};
    {| id := 2; email := "inactive@example.com";
       hashed_password := sample_hash; is_active := false |};
    {| id := 3; email := "legacy@example.com";
       hashed_password := "not-a-hash"; is_active := true |} ].

(* ================================================================== *)
(** ** [src/users/schemas.py], [src/users/crud.py]: registration *)

(** [class UserCreate(UserBase)]: the validated request body. *)
Module UserCreate.
Record t := { email : string; password : string }.
End UserCreate.

(** [create_user(db, user_create)]. The password is hashed first ([salt]
    is the salt the hasher draws); [db.flush()] then inserts the row:
    [new_id] is the primary key the database assigns, [is_active] takes
    its column default, and the unique constraint on [users.email]
    refuses a second row with the same email ([None] stands for the
    [IntegrityError] raised by the flush). On success the refreshed row
    is returned together with the table that now holds it. *)
Definition create_user {P : Passlib} (db : Db) (salt : string) (new_id : Z)
    (user_create : UserCreate.t) : M (option (User * Db)) :=
  hashed <- hash_password salt (UserCreate.password user_create) ;;
  let db_user :=
    {| id := new_id;
       email := UserCreate.email user_create;
       hashed_password := hashed;
       is_active := true |} in
  match get_user_by_email db (UserCreate.email user_create) with
  | Some _ => ret None
  | None => ret (Some (db_user, (db ++ [db_user])%list))
  end.

(** The row a successful [create_user] inserts and returns. *)
Definition registered_user {P : Passlib} (salt : string) (new_id : Z)
    (user_create : UserCreate.t) : User :=
  {| id := new_id;
     email := UserCreate.email user_create;
     hashed_password :=
       phc_format salt (kdf salt (UserCreate.password user_create));
     is_active := true |}.

(* ================================================================== *)
(** ** [src/auth/router.py]: logout *)

Definition HTTP_204_NO_CONTENT : Z := 204.

(** The body of [logout(user)]: an empty response with status 204. *)
Definition logout (user : User) : Z := HTTP_204_NO_CONTENT.

(** The logout endpoint on a bearer token: FastAPI resolves the
    dependency [get_current_user_for_logout] and then runs the body. *)
Definition logout_endpoint {J : Jose} {Py : Pydantic} (settings : Settings)
    (db : Db) (now : datetime) (token : string) : result Z :=
  rbind (get_current_user_for_logout settings db now token)
        (fun user => Ok (logout user)).

(** The schema constraints of [users]: [id] is the primary key and
    [email] is declared unique. *)
Definition Db_keys (db : Db) : Prop :=
  NoDup (map id db) /\ NoDup (map email db).

(** Seconds of lifetime configured for each kind of token. *)
Definition lifetime_seconds (settings : Settings) (k : token_type) : Z :=
  match k with
  | Access => 60 * ACCESS_TOKEN_EXPIRE_MINUTES settings
  | Refresh => 86400 * REFRESH_TOKEN_EXPIRE_DAYS settings
  end.

(* ================================================================== *)
(** * Properties *)

(** ** Python built-ins *)

Example int_of_str_ex1 : int_of_str "42" = Some 42.
Proof. reflexivity. Qed.
Example int_of_str_ex2 : int_of_str " -1_000 " = Some (-1000).
Proof. reflexivity. Qed.
Example int_of_str_ex3 : int_of_str "abc" = None.
Proof. reflexivity. Qed.
Example int_of_str_ex4 : int_of_str "1__0" = None.
Proof. reflexivity. Qed.
Example int_of_str_ex5 : int_of_str "" = None.
Proof. reflexivity. Qed.
Example int_of_str_ex6 : int_of_str "007" = Some 7.
Proof. reflexivity. Qed.
Example str_of_int_ex : str_of_int (-305) = "-305" /\ str_of_int 0 = "0".
Proof. split; reflexivity. Qed.

Lemma digit_not_special a :
  is_digit a = true ->
  is_space a = false /\ Ascii.eqb a "-" = false /\
  Ascii.eqb a "+" = false /\ Ascii.eqb a "_" = false.
Proof.
  destruct a as [[] [] [] [] [] [] [] []]; cbv; intros H;
    try discriminate H; repeat split.
Qed.

Lemma string_of_uint_digits d :
  all_chars is_digit (NilEmpty.string_of_uint d) = true.
Proof. induction d; simpl; auto. Qed.

Lemma rstrip_no_space s :
  all_chars (fun a => negb (is_space a)) s = true -> rstrip s = s.
Proof.
  induction s as [|a r IH]; simpl; [reflexivity|].
  intros H. apply andb_true_iff in H as [Ha Hr].
  rewrite (IH Hr). apply negb_true_iff in Ha. rewrite Ha.
  destruct r; reflexivity.
Qed.

Lemma digits_no_space s :
  all_chars is_digit s = true ->
  all_chars (fun a => negb (is_space a)) s = true.
Proof.
  induction s as [|a r IH]; simpl; [reflexivity|].
  intros H. apply andb_true_iff in H as [Ha Hr].
  destruct (digit_not_special a Ha) as [-> _]. simpl. auto.
Qed.

Lemma literal_digits_true s :
  all_chars is_digit s = true -> literal_digits true s = Some s.
Proof.
  induction s as [|a r IH]; simpl; [reflexivity|].
  intros H. apply andb_true_iff in H as [Ha Hr].
  rewrite Ha, (IH Hr). reflexivity.
Qed.

Lemma literal_digits_false a r :
  all_chars is_digit (String a r) = true ->
  literal_digits false (String a r) = Some (String a r).
Proof.
  simpl. intros H. apply andb_true_iff in H as [Ha Hr].
  rewrite Ha, (literal_digits_true r Hr). reflexivity.
Qed.

Lemma pos_to_uint_nonnil p : Pos.to_uint p <> Decimal.Nil.
Proof.
  intros H. pose proof (DecimalPos.Unsigned.of_to p) as E.
  rewrite H in E. discriminate E.
Qed.

Lemma nat_literal_pos p :
  nat_literal (NilEmpty.string_of_uint (Pos.to_uint p)) = Some (Z.pos p).
Proof.
  unfold nat_literal.
  pose proof (string_of_uint_digits (Pos.to_uint p)) as Hd.
  destruct (NilEmpty.string_of_uint (Pos.to_uint p)) as [|a r] eqn:E.
  - exfalso. apply (pos_to_uint_nonnil p).
    destruct (Pos.to_uint p); simpl in E; try discriminate E; reflexivity.
  - rewrite (literal_digits_false a r Hd), <- E, NilEmpty.usu. simpl.
    f_equal. change (Z.of_int (Z.to_int (Z.pos p)) = Z.pos p).
    apply DecimalZ.of_to.
Qed.

Lemma string_of_uint_pos p :
  NilZero.string_of_uint (Pos.to_uint p) = NilEmpty.string_of_uint (Pos.to_uint p).
Proof.
  pose proof (pos_to_uint_nonnil p).
  destruct (Pos.to_uint p); [congruence | reflexivity ..].
Qed.

(** [int(str(n)) == n] for every integer. *)
Lemma int_of_str_str_of_int n : int_of_str (str_of_int n) = Some n.
Proof.
  destruct n as [|p|p]; [reflexivity | |]; unfold str_of_int; simpl;
    rewrite string_of_uint_pos.
  - pose proof (string_of_uint_digits (Pos.to_uint p)) as Hd.
    pose proof (nat_literal_pos p) as Hn.
    destruct (NilEmpty.string_of_uint (Pos.to_uint p)) as [|a r] eqn:E.
    + discriminate Hn.
    + unfold int_of_str, strip.
      assert (Ha : is_digit a = true)
        by (simpl in Hd; apply andb_true_iff in Hd; tauto).
      destruct (digit_not_special a Ha) as (Hs & Hm & Hp & _).
      simpl lstrip. rewrite Hs.
      rewrite (rstrip_no_space _ (digits_no_space _ Hd)).
      rewrite Hm, Hp. exact Hn.
  - pose proof (string_of_uint_digits (Pos.to_uint p)) as Hd.
    unfold int_of_str, strip. simpl lstrip.
    rewrite rstrip_no_space.
    + simpl. rewrite nat_literal_pos. reflexivity.
    + simpl. apply digits_no_space, Hd.
Qed.

(** ** The reference implementation meets the contracts *)

Module RefFacts.
Import Ref.

Lemma dec_enc_cons x l :
  dec_strs (enc_strs l) = Some l ->
  dec_strs (enc_str x ++ enc_strs l) = Some (x :: l).
Proof.
  intros Hl. induction x as [|a r IH]; simpl.
  - rewrite Hl. reflexivity.
  - rewrite IH. reflexivity.
Qed.

Lemma dec_enc_strs l : dec_strs (enc_strs l) = Some l.
Proof.
  induction l as [|x l IH]; [reflexivity|].
  simpl. apply dec_enc_cons, IH.
Qed.

Lemma enc_strs_inj l1 l2 : enc_strs l1 = enc_strs l2 -> l1 = l2.
Proof.
  intros H. pose proof (dec_enc_strs l1) as H1.
  rewrite H, dec_enc_strs in H1. congruence.
Qed.

Lemma claims_of_fields_of_claims c :
  claims_of_fields (fields_of_claims c) = Some c.
Proof.
  induction c as [|[k [s|n]] c IH]; simpl; [reflexivity| |].
  - rewrite IH. reflexivity.
  - rewrite IH. simpl. rewrite int_of_str_str_of_int. reflexivity.
Qed.

Lemma jose_ok : jose_contract jose.
Proof.
  intros c key _. simpl. unfold verify, sign.
  rewrite dec_enc_strs, String.eqb_refl, claims_of_fields_of_claims.
  reflexivity.
Qed.


End RefFacts.

(** ** Clock arithmetic *)

Lemma div_le_quot a : a / 1000000 <= Z.quot a 1000000.
Proof.
  destruct (Z_le_gt_dec 0 a) as [Ha|Ha].
  - rewrite Z.quot_div_nonneg by lia. lia.
  - pose proof (Z.quot_rem' a 1000000) as E.
    pose proof (Z.rem_bound_pos_neg a 1000000 ltac:(lia) ltac:(lia)) as B.
    assert (a / 1000000 * 1000000 <= a).
    { pose proof (Z.mul_div_le a 1000000). lia. }
    lia.
Qed.

Lemma timegm_le_int_timestamp (t t' : datetime) :
  t' <= t -> timegm_utc t' <= int_timestamp t.
Proof.
  intros H. unfold timegm_utc, int_timestamp.
  pose proof (div_le_quot t).
  pose proof (Z.div_le_mono t' t 1000000). lia.
Qed.

Lemma int_timestamp_lt_timegm (t t' : datetime) :
  0 <= t -> t + 1000000 <= t' -> int_timestamp t < timegm_utc t'.
Proof.
  intros H0 H. unfold timegm_utc, int_timestamp.
  rewrite Z.quot_div_nonneg by lia.
  pose proof (Z.div_le_mono (t + 1 * 1000000) t' 1000000).
  rewrite Z.div_add in * by lia. lia.
Qed.

(** ** Decoding a signed token *)

Section TokenFacts.

Context {J : Jose} {Py : Pydantic}.
Variable settings : Settings.
Hypothesis HJ : jose_contract J.

Lemma token_type_of_str_str k : token_type_of_str (token_type_str k) = Some k.
Proof. destruct k; reflexivity. Qed.

Lemma token_type_eqb_refl k : token_type_eqb k k = true.
Proof. destruct k; reflexivity. Qed.

Lemma validate_signed_claims s e i k now :
  validate_claims (signed_claims s e i k) now =
  if e <? now then Some "Signature has expired." else None.
Proof. cbn. destruct (e <? now); reflexivity. Qed.

Lemma TokenPayload_signed_claims s e i k :
  TokenPayload_validate (signed_claims s e i k) =
  Some {| sub := s; exp := e; iat := i; type := k |}.
Proof. cbn. rewrite token_type_of_str_str. reflexivity. Qed.

Lemma TokenPayload_validate_sub c tp :
  TokenPayload_validate c = Some tp -> get "sub" c = Some (JStr (sub tp)).
Proof.
  unfold TokenPayload_validate. intros H.
  destruct (get "sub" c) as [[s|n]|]; try discriminate H.
  destruct (get "exp" c) as [e|]; try discriminate H.
  destruct (get "iat" c) as [i|]; try discriminate H.
  destruct (get "type" c) as [[t|n]|]; try discriminate H.
  destruct (int_field e), (int_field i), (token_type_of_str t);
    try discriminate H.
  injection H as <-. reflexivity.
Qed.

(** [decode_token] on any signed claims object that passes the library's
    checks and validates as a [TokenPayload]. *)
Lemma decode_token_accepts c tp expected now :
  claims_wf c = true ->
  validate_claims c (timegm_utc now) = None ->
  TokenPayload_validate c = Some tp ->
  type tp = expected ->
  decode_token settings (jwt_encode c (SECRET_KEY settings)) expected now = Ok tp.
Proof.
  intros Hwf Hv Hp <-. unfold decode_token, jwt_decode, jwt_encode.
  rewrite (HJ c _ Hwf), Hv, Hp, token_type_eqb_refl. reflexivity.
Qed.

(** The outcome of [decode_token] on a token signed with the configured
    key over four well-typed members. *)
Lemma decode_token_signed s e i k expected now :
  decode_token settings
    (jwt_encode (signed_claims s e i k) (SECRET_KEY settings)) expected now =
  if e <? timegm_utc now then
    Raise (JWTError "Invalid token: Signature has expired.")
  else if token_type_eqb k expected then
    Ok {| sub := s; exp := e; iat := i; type := k |}
  else
    Raise (JWTError ("Invalid token type. Expected "
                     ++ token_type_str expected ++ ", got "
                     ++ token_type_str k)).
Proof.
  unfold decode_token, jwt_decode, jwt_encode.
  rewrite HJ by reflexivity.
  rewrite validate_signed_claims.
  destruct (e <? timegm_utc now); [reflexivity|].
  rewrite TokenPayload_signed_claims. simpl.
  destruct (token_type_eqb k expected); reflexivity.
Qed.

Lemma mint_signed k now user_id :
  mint settings k now user_id =
  jwt_encode (signed_claims (str_of_int user_id)
                (int_timestamp (now + TTL settings k)) (int_timestamp now) k)
    (SECRET_KEY settings).
Proof. destruct k; reflexivity. Qed.

Lemma decode_token_mint k expected t t' user_id :
  decode_token settings (mint settings k t user_id) expected t' =
  if int_timestamp (t + TTL settings k) <? timegm_utc t' then
    Raise (JWTError "Invalid token: Signature has expired.")
  else if token_type_eqb k expected then
    Ok {| sub := str_of_int user_id;
          exp := int_timestamp (t + TTL settings k);
          iat := int_timestamp t;
          type := k |}
  else
    Raise (JWTError ("Invalid token type. Expected "
                     ++ token_type_str expected ++ ", got "
                     ++ token_type_str k)).
Proof. rewrite mint_signed. apply decode_token_signed. Qed.

End TokenFacts.

(** ** The login flow *)

Section LoginFacts.

Context {J : Jose} {P : Passlib}.
Variable settings : Settings.
Variable db : Db.

Lemma authenticate_user_absent e password :
  get_user_by_email db e = None ->
  authenticate_user db e password = ([], Ok None).
Proof. intros H. unfold authenticate_user. rewrite H. reflexivity. Qed.

Lemma authenticate_user_checked e password u b :
  get_user_by_email db e = Some u ->
  pwd_context_verify password (hashed_password u) = Ok b ->
  authenticate_user db e password =
  ([PwdVerify password (hashed_password u)], Ok (if b then Some u else None)).
Proof.
  intros H Hv. unfold authenticate_user, verify_password, bind, emit, lift, ret.
  rewrite H. simpl. rewrite Hv. destruct b; reflexivity.
Qed.

Lemma authenticate_user_raises e password u x :
  get_user_by_email db e = Some u ->
  pwd_context_verify password (hashed_password u) = Raise x ->
  authenticate_user db e password =
  ([PwdVerify password (hashed_password u)], Raise x).
Proof.
  intros H Hv. unfold authenticate_user, verify_password, bind, emit, lift, ret.
  rewrite H. simpl. rewrite Hv. reflexivity.
Qed.

Lemma login_user_absent now_a now_r e password :
  get_user_by_email db e = None ->
  login_user settings db now_a now_r e password = ([], Raise invalid_credentials).
Proof.
  intros H. unfold login_user. rewrite (authenticate_user_absent _ _ H).
  reflexivity.
Qed.

Lemma login_user_wrong_password now_a now_r e password u :
  get_user_by_email db e = Some u ->
  pwd_context_verify password (hashed_password u) = Ok false ->
  login_user settings db now_a now_r e password =
  ([PwdVerify password (hashed_password u)], Raise invalid_credentials).
Proof.
  intros H Hv. unfold login_user.
  rewrite (authenticate_user_checked _ _ _ _ H Hv). reflexivity.
Qed.

Lemma login_user_verified now_a now_r e password u :
  get_user_by_email db e = Some u ->
  pwd_context_verify password (hashed_password u) = Ok true ->
  login_user settings db now_a now_r e password =
  ([PwdVerify password (hashed_password u)],
   if is_active u then
     Ok (mkToken (create_access_token settings now_a (id u))
                 (create_refresh_token settings now_r (id u)))
   else Raise (HTTPError InactiveUserError)).
Proof.
  intros H Hv. unfold login_user.
  rewrite (authenticate_user_checked _ _ _ _ H Hv).
  unfold bind. simpl. destruct (is_active u); reflexivity.
Qed.

Lemma login_user_raises now_a now_r e password u x :
  get_user_by_email db e = Some u ->
  pwd_context_verify password (hashed_password u) = Raise x ->
  login_user settings db now_a now_r e password =
  ([PwdVerify password (hashed_password u)], Raise x).
Proof.
  intros H Hv. unfold login_user.
  rewrite (authenticate_user_raises _ _ _ _ H Hv). reflexivity.
Qed.

End LoginFacts.

(** ** The user table *)

Lemma get_user_by_id_sound (db : Db) user_id u :
  get_user_by_id db user_id = Some u -> id u = user_id.
Proof.
  unfold get_user_by_id. intros H. apply find_some in H as [_ H].
  apply Z.eqb_eq, H.
Qed.

Lemma get_user_by_email_sound (db : Db) e u :
  get_user_by_email db e = Some u -> email u = e.
Proof.
  unfold get_user_by_email. intros H. apply find_some in H as [_ H].
  apply String.eqb_eq, H.
Qed.

(** ** The refresh flow *)

Section RefreshFacts.

Context {J : Jose} {Py : Pydantic}.
Variable settings : Settings.
Variable db : Db.

Lemma refresh_decode_fails now now_mint token x :
  decode_token settings token Refresh now = Raise x ->
  refresh settings db now now_mint token = Raise refresh_token_error.
Proof. intros H. unfold refresh. rewrite H. reflexivity. Qed.

Lemma refresh_bad_subject now now_mint token payload :
  decode_token settings token Refresh now = Ok payload ->
  int_of_str (sub payload) = None ->
  refresh settings db now now_mint token = Raise (ValueError (sub payload)).
Proof.
  intros H Hs. unfold refresh, py_int. rewrite H, Hs. reflexivity.
Qed.

Lemma refresh_decoded now now_mint token payload user_id :
  decode_token settings token Refresh now = Ok payload ->
  int_of_str (sub payload) = Some user_id ->
  refresh settings db now now_mint token =
  match get_user_by_id db user_id with
  | None => Raise refresh_user_error
  | Some user =>
      if is_active user then
        Ok (mkToken (create_access_token settings now_mint (id user)) token)
      else Raise refresh_user_error
  end.
Proof.
  intros H Hs. unfold refresh, py_int. rewrite H, Hs. simpl.
  destruct (get_user_by_id db user_id) as [u|]; [|reflexivity].
  destruct (is_active u); reflexivity.
Qed.

(** A successful refresh went through every step. *)
Lemma refresh_ok_inv now now_mint token out :
  refresh settings db now now_mint token = Ok out ->
  exists payload user_id user,
    decode_token settings token Refresh now = Ok payload /\
    int_of_str (sub payload) = Some user_id /\
    get_user_by_id db user_id = Some user /\
    is_active user = true /\
    out = mkToken (create_access_token settings now_mint (id user)) token.
Proof.
  intros H.
  destruct (decode_token settings token Refresh now) as [payload|x] eqn:Hd.
  - destruct (int_of_str (sub payload)) as [user_id|] eqn:Hs.
    + rewrite (refresh_decoded _ _ _ _ _ Hd Hs) in H.
      destruct (get_user_by_id db user_id) as [u|] eqn:Hu; [|discriminate H].
      destruct (is_active u) eqn:Ha; [|discriminate H].
      injection H as <-. exists payload, user_id, u. auto.
    + rewrite (refresh_bad_subject _ _ _ _ Hd Hs) in H. discriminate H.
  - rewrite (refresh_decode_fails _ _ _ _ Hd) in H. discriminate H.
Qed.

End RefreshFacts.

(** ** What an accepted token went through *)

Lemma token_type_of_str_inv t k :
  token_type_of_str t = Some k -> t = token_type_str k.
Proof.
  unfold token_type_of_str.
  destruct (String.eqb_spec t "access") as [->|_];
    [intros [= <-]; reflexivity|].
  destruct (String.eqb_spec t "refresh") as [->|_];
    [intros [= <-]; reflexivity|].
  discriminate.
Qed.

Lemma token_type_eqb_eq k k' : token_type_eqb k k' = true -> k = k'.
Proof. destruct k, k'; simpl; intros H; try reflexivity; discriminate H. Qed.

Lemma validate_claims_exp c now :
  validate_claims c now = None -> validate_exp c now = None.
Proof.
  unfold validate_claims. simpl.
  destruct (validate_iat c); [discriminate|].
  destruct (validate_nbf c now); [discriminate|].
  destruct (validate_exp c now); [discriminate|]. reflexivity.
Qed.

Lemma validate_exp_live c now v :
  validate_exp c now = None -> get "exp" c = Some v ->
  exists e, claim_int v = Some e /\ now <= e.
Proof.
  unfold validate_exp. intros H Hv. rewrite Hv in H.
  destruct (claim_int v) as [e|]; [|discriminate H].
  exists e. split; [reflexivity|].
  destruct (Z.ltb_spec e now); [discriminate H | lia].
Qed.

Lemma TokenPayload_validate_members {Py : Pydantic} c tp :
  TokenPayload_validate c = Some tp ->
  get "sub" c = Some (JStr (sub tp))
  /\ (exists v, get "exp" c = Some v /\ int_field v = Some (exp tp))
  /\ (exists v, get "iat" c = Some v /\ int_field v = Some (iat tp))
  /\ get "type" c = Some (JStr (token_type_str (type tp))).
Proof.
  unfold TokenPayload_validate. intros H.
  destruct (get "sub" c) as [[s|n]|]; try discriminate H.
  destruct (get "exp" c) as [e|]; try discriminate H.
  destruct (get "iat" c) as [i|]; try discriminate H.
  destruct (get "type" c) as [[t|n]|]; try discriminate H.
  destruct (int_field e) as [e'|] eqn:He; try discriminate H.
  destruct (int_field i) as [i'|] eqn:Hi; try discriminate H.
  destruct (token_type_of_str t) as [k|] eqn:Hk; try discriminate H.
  injection H as <-. simpl. apply token_type_of_str_inv in Hk. subst t.
  repeat split; eauto.
Qed.

Section DecodeFacts.

Context {J : Jose} {Py : Pydantic}.
Variable settings : Settings.

(** Every way [decode_token] can end. *)
Lemma decode_token_cases token expected now :
  (exists tp c,
     decode_token settings token expected now = Ok tp
     /\ jws_verify token (SECRET_KEY settings) = inr c
     /\ validate_claims c (timegm_utc now) = None
     /\ TokenPayload_validate c = Some tp
     /\ type tp = expected)
  \/ (exists msg,
        decode_token settings token expected now = Raise (JWTError msg)).
Proof.
  unfold decode_token, jwt_decode.
  destruct (jws_verify token (SECRET_KEY settings)) as [msg|c];
    [right; eexists; reflexivity|].
  destruct (validate_claims c (timegm_utc now)) as [msg|] eqn:Hv;
    [right; eexists; reflexivity|].
  destruct (TokenPayload_validate c) as [tp|] eqn:Hp;
    [|right; eexists; reflexivity].
  destruct (token_type_eqb (type tp) expected) eqn:Hk; simpl.
  - left. exists tp, c. apply token_type_eqb_eq in Hk. auto.
  - right. eexists. reflexivity.
Qed.

End DecodeFacts.

(* ================================================================== *)
(** * The claims *)

(** ** Token codec *)

(** C1 (as the code has it). For clock readings on which the whole
    seconds written into a token are exact ([clock_in_range], for the
    minting time and for the expiry time): a token minted at [t] for
    subject [s] and kind [k] verifies under the same kind, with subject
    text [str(s)] that converts back to [s], at every [t'] from [t] up to
    and including [t + TTL(k)]: the expiry instant itself is still
    accepted. It fails with the expiry message as soon as the verifier's
    whole-second clock exceeds the [exp] claim, in particular from one
    second after [t + TTL(k)] on. *)
Theorem token_validity_window
    {J : Jose} {Py : Pydantic} (settings : Settings) (HJ : jose_contract J)
    (s : Z) (k : token_type) (t t' : datetime) :
  (clock_in_range t -> clock_in_range (t + TTL settings k) ->
   (t <= t' <= t + TTL settings k ->
    decode_token settings (mint settings k t s) k t' =
    Ok {| sub := str_of_int s;
          exp := int_timestamp (t + TTL settings k);
          iat := int_timestamp t;
          type := k |})
   /\ (int_timestamp (t + TTL settings k) < timegm_utc t' ->
       decode_token settings (mint settings k t s) k t' =
       Raise (JWTError "Invalid token: Signature has expired."))
   /\ (t + TTL settings k + 1000000 <= t' ->
       decode_token settings (mint settings k t s) k t' =
       Raise (JWTError "Invalid token: Signature has expired.")))
  /\ py_int (str_of_int s) = Ok s.
Proof.
  split; [intros Ht Hexp; repeat split|].
  - intros [_ H]. rewrite (decode_token_mint settings HJ).
    apply timegm_le_int_timestamp in H.
    destruct (Z.ltb_spec (int_timestamp (t + TTL settings k)) (timegm_utc t'));
      [lia|].
    rewrite token_type_eqb_refl. reflexivity.
  - intros H. rewrite (decode_token_mint settings HJ).
    apply Z.ltb_lt in H. rewrite H. reflexivity.
  - intros H. rewrite (decode_token_mint settings HJ).
    apply (int_timestamp_lt_timegm _ _ (proj1 Hexp)), Z.ltb_lt in H.
    rewrite H. reflexivity.
  - unfold py_int. rewrite int_of_str_str_of_int. reflexivity.
Qed.

Lemma token_validity_window_witness :
  decode_token (J := Ref.jose) (Py := Ref.pydantic) default_settings
    (mint (J := Ref.jose) default_settings Access 0 7) Access 900000000 =
  Ok {| sub := "7"; exp := 1800; iat := 0; type := Access |}.
Proof.
  refine (proj1 (proj1 (token_validity_window (J := Ref.jose)
                          (Py := Ref.pydantic) default_settings
                          RefFacts.jose_ok 7 Access 0 900000000) _ _) _).
  - unfold clock_in_range. lia.
  - unfold clock_in_range, TTL, timedelta_minutes. simpl. lia.
  - unfold TTL, timedelta_minutes. simpl. lia.
Defined.

(** C1, counterexample to the half-open window: with the default
    settings an access token minted at the epoch is still accepted at
    the instant [t + TTL], 1800 seconds later. *)
Lemma token_valid_at_expiry_instant :
  0 + TTL default_settings Access = 1800000000 /\
  decode_token (J := Ref.jose) (Py := Ref.pydantic) default_settings
    (mint (J := Ref.jose) default_settings Access 0 7) Access 1800000000 =
  Ok {| sub := "7"; exp := 1800; iat := 0; type := Access |}.
Proof. split; vm_compute; reflexivity. Qed.

(** C7. A token minted as an access token never verifies as a refresh
    token, and a token minted as a refresh token never verifies as an
    access token, whatever the subject, the minting time and the
    verification time (expired or not): [decode_token] raises a
    [JWTError]. *)
Theorem wrong_kind_rejected
    {J : Jose} {Py : Pydantic} (settings : Settings) (HJ : jose_contract J)
    (s : Z) (t t' : datetime) :
  (exists msg,
     decode_token settings (create_access_token settings t s) Refresh t' =
     Raise (JWTError msg))
  /\ (exists msg,
        decode_token settings (create_refresh_token settings t s) Access t' =
        Raise (JWTError msg)).
Proof.
  split.
  - change (create_access_token settings t s) with (mint settings Access t s).
    rewrite (decode_token_mint settings HJ).
    destruct (_ <? _); simpl; eexists; reflexivity.
  - change (create_refresh_token settings t s) with (mint settings Refresh t s).
    rewrite (decode_token_mint settings HJ).
    destruct (_ <? _); simpl; eexists; reflexivity.
Qed.

Lemma wrong_kind_rejected_witness :
  (exists msg,
     decode_token (J := Ref.jose) (Py := Ref.pydantic) default_settings
       (create_access_token (J := Ref.jose) default_settings 0 7) Refresh 5000000 =
     Raise (JWTError msg))
  /\ (exists msg,
        decode_token (J := Ref.jose) (Py := Ref.pydantic) default_settings
          (create_refresh_token (J := Ref.jose) default_settings 0 7) Access 5000000 =
        Raise (JWTError msg)).
Proof.
  exact (wrong_kind_rejected (J := Ref.jose) (Py := Ref.pydantic)
           default_settings RefFacts.jose_ok 7 0 5000000).
Defined.

Example wrong_kind_message :
  decode_token (J := Ref.jose) (Py := Ref.pydantic) default_settings
    (create_access_token (J := Ref.jose) default_settings 0 7) Refresh 5000000 =
  Raise (JWTError "Invalid token type. Expected refresh, got access").
Proof. vm_compute. reflexivity. Qed.

(** C10. [decode_token] does not look at what the subject text holds:
    every claims object signed with the configured key that passes the
    library's checks and has the fields of [TokenPayload] decodes, under
    its own kind, to a payload whose [sub] is the text stored in the
    token; in particular a token over any text [s] as [sub], unexpired
    and of the expected kind, decodes to a payload with that very [sub].
    When [s] is an ASCII text that is no integer literal, [int(sub)] in
    [get_current_user] and in [refresh] raises [ValueError] after the
    handlers around [decode_token], so the failure is none of the HTTP
    errors those handlers produce. *)
Theorem non_numeric_subject_escapes
    {J : Jose} {Py : Pydantic} (settings : Settings) (HJ : jose_contract J)
    (db : Db) (now now_mint : datetime) (s : string) (e i : Z)
    (Hlive : timegm_utc now <= e) :
  (forall c tp,
     claims_wf c = true ->
     validate_claims c (timegm_utc now) = None ->
     TokenPayload_validate c = Some tp ->
     decode_token settings (jwt_encode c (SECRET_KEY settings)) (type tp) now =
     Ok tp
     /\ get "sub" c = Some (JStr (sub tp)))
  /\ (forall k,
     decode_token settings
       (jwt_encode (signed_claims s e i k) (SECRET_KEY settings)) k now =
     Ok {| sub := s; exp := e; iat := i; type := k |})
  /\ (all_ascii s = true -> int_of_str s = None ->
      get_current_user settings db now
        (jwt_encode (signed_claims s e i Access) (SECRET_KEY settings)) =
      Raise (ValueError s)
      /\ refresh settings db now now_mint
           (jwt_encode (signed_claims s e i Refresh) (SECRET_KEY settings)) =
         Raise (ValueError s)).
Proof.
  assert (Hd : forall k,
     decode_token settings
       (jwt_encode (signed_claims s e i k) (SECRET_KEY settings)) k now =
     Ok {| sub := s; exp := e; iat := i; type := k |}).
  { intros k. rewrite (decode_token_signed settings HJ).
    destruct (Z.ltb_spec e (timegm_utc now)); [lia|].
    rewrite token_type_eqb_refl. reflexivity. }
  split; [|split; [exact Hd|]].
  { intros c tp Hwf Hv Hp. split.
    - exact (decode_token_accepts settings HJ c tp _ now Hwf Hv Hp eq_refl).
    - exact (TokenPayload_validate_sub c tp Hp). }
  intros _ Hs. split.
  - unfold get_current_user, py_int. rewrite Hd. simpl. rewrite Hs. reflexivity.
  - apply (refresh_bad_subject settings db _ _ _ _ (Hd Refresh)). exact Hs.
Qed.

Lemma non_numeric_subject_escapes_witness :
  get_current_user (J := Ref.jose) (Py := Ref.pydantic) default_settings
    sample_db 0
    (jwt_encode (J := Ref.jose) (signed_claims "admin" 60 0 Access)
       (SECRET_KEY default_settings)) =
  Raise (ValueError "admin").
Proof.
  refine (proj1 (proj2 (proj2 (non_numeric_subject_escapes (J := Ref.jose)
                          (Py := Ref.pydantic) default_settings RefFacts.jose_ok
                          sample_db 0 0 "admin" 60 0 _)) _ _)).
  - vm_compute. discriminate.
  - reflexivity.
  - reflexivity.
Defined.

(** ** Refresh *)

(** C4. Whenever [refresh] succeeds, the refresh-token field of the
    response is the presented token itself. The presented token verified
    under the configured key as a refresh token, the user id is the
    integer its [sub] claim denotes, and that id resolves to an active
    record. The access-token field is the token [create_access_token]
    mints at the time of the call for that id: it verifies under the
    configured key with subject [str(id)] and type [access], it is
    accepted as an access token up to its expiry instant, and it is
    never accepted as a refresh token. *)
Theorem refresh_returns_presented_token
    {J : Jose} {Py : Pydantic} (settings : Settings) (HJ : jose_contract J)
    (db : Db) (now now_mint : datetime) (token : string) (out : Token)
    (Hok : refresh settings db now now_mint token = Ok out) :
  refresh_token out = token
  /\ token_type_field out = "bearer"
  /\ exists c subject user_id user,
       jws_verify token (SECRET_KEY settings) = inr c
       /\ get "sub" c = Some (JStr subject)
       /\ get "type" c = Some (JStr "refresh")
       /\ int_of_str subject = Some user_id
       /\ get_user_by_id db user_id = Some user
       /\ id user = user_id
       /\ is_active user = true
       /\ access_token out = create_access_token settings now_mint user_id
       /\ (exists c',
             jws_verify (access_token out) (SECRET_KEY settings) = inr c'
             /\ get "sub" c' = Some (JStr (str_of_int user_id))
             /\ get "type" c' = Some (JStr "access"))
       /\ (forall now',
             now' <= now_mint + TTL settings Access ->
             exists p,
               decode_token settings (access_token out) Access now' = Ok p
               /\ sub p = str_of_int user_id /\ type p = Access)
       /\ (forall now',
             exists msg,
               decode_token settings (access_token out) Refresh now' =
               Raise (JWTError msg)).
Proof.
  destruct (refresh_ok_inv settings db _ _ _ _ Hok)
    as (payload & user_id & u & Hd & Hs & Hu & Ha & ->).
  pose proof (get_user_by_id_sound _ _ _ Hu) as Hid.
  destruct (decode_token_cases settings token Refresh now)
    as [(tp & c & Hd' & Hj & _ & Hp & Hk) | (msg & Hd')];
    rewrite Hd' in Hd; [|discriminate Hd].
  injection Hd as ->.
  destruct (TokenPayload_validate_members c payload Hp) as (Hsub & _ & _ & Hty).
  rewrite Hk in Hty.
  split; [reflexivity|]. split; [reflexivity|].
  exists c, (sub payload), user_id, u. simpl. rewrite Hid.
  change (create_access_token settings now_mint user_id)
    with (mint settings Access now_mint user_id).
  repeat split; auto.
  - rewrite mint_signed. unfold jwt_encode. eexists. split.
    + apply HJ. reflexivity.
    + split; reflexivity.
  - intros now' Hlive. eexists. split.
    + rewrite (decode_token_mint settings HJ).
      apply timegm_le_int_timestamp in Hlive.
      destruct (Z.ltb_spec (int_timestamp (now_mint + TTL settings Access))
                  (timegm_utc now')); [lia|].
      reflexivity.
    + split; reflexivity.
  - intros now'. rewrite (decode_token_mint settings HJ).
    destruct (_ <? _); simpl; eexists; reflexivity.
Qed.

Lemma refresh_returns_presented_token_witness :
  refresh_token
    (mkToken (create_access_token (J := Ref.jose) default_settings 61000000 1)
       (create_refresh_token (J := Ref.jose) default_settings 0 1)) =
  create_refresh_token (J := Ref.jose) default_settings 0 1.
Proof.
  refine (proj1 (refresh_returns_presented_token (J := Ref.jose)
                   (Py := Ref.pydantic) default_settings RefFacts.jose_ok
                   sample_db 60000000 61000000
                   (create_refresh_token (J := Ref.jose) default_settings 0 1)
                   _ _)).
  vm_compute. reflexivity.
Defined.

(** C5 (as the code has it). Every failure of [refresh] caused by the
    token (malformed, expired, of the wrong kind, or anything else
    [decode_token] raises) is the one response 401 with detail
    [Invalid or expired refresh token] (for a minted refresh token,
    expiry is read off an expiry time in [clock_in_range]). A user id
    that resolves to no record and a record whose active flag is false
    both give the one response 401 with detail
    [User no longer exists or is inactive] (for a subject that is a
    plain text and an id the id column can hold): the two account states
    are not told apart, but this response is not the one given for a bad
    token. *)
Theorem refresh_failures
    {J : Jose} {Py : Pydantic} (settings : Settings) (HJ : jose_contract J)
    (db : Db) (now now_mint : datetime) :
  (forall token x,
     decode_token settings token Refresh now = Raise x ->
     refresh settings db now now_mint token = Raise refresh_token_error)
  /\ (forall s t,
        refresh settings db now now_mint (create_access_token settings t s) =
        Raise refresh_token_error)
  /\ (forall s t,
        clock_in_range (t + TTL settings Refresh) ->
        int_timestamp (t + TTL settings Refresh) < timegm_utc now ->
        refresh settings db now now_mint (create_refresh_token settings t s) =
        Raise refresh_token_error)
  /\ (forall token payload user_id,
        decode_token settings token Refresh now = Ok payload ->
        plain_text (sub payload) ->
        int_of_str (sub payload) = Some user_id ->
        id_in_range user_id ->
        get_user_by_id db user_id = None \/
        (exists u, get_user_by_id db user_id = Some u /\ is_active u = false) ->
        refresh settings db now now_mint token = Raise refresh_user_error)
  /\ status_code
       (HTTPException HTTP_401_UNAUTHORIZED "Invalid or expired refresh token" None)
     = status_code
         (HTTPException HTTP_401_UNAUTHORIZED
            "User no longer exists or is inactive" None).
Proof.
  split; [|split; [|split; [|split]]].
  - intros token x H. exact (refresh_decode_fails settings db _ _ _ _ H).
  - intros s t.
    change (create_access_token settings t s) with (mint settings Access t s).
    pose proof (decode_token_mint settings HJ Access Refresh t now s) as H.
    destruct (_ <? _); simpl in H;
      exact (refresh_decode_fails settings db _ _ _ _ H).
  - intros s t _ Hexp.
    change (create_refresh_token settings t s) with (mint settings Refresh t s).
    pose proof (decode_token_mint settings HJ Refresh Refresh t now s) as H.
    apply Z.ltb_lt in Hexp. rewrite Hexp in H.
    exact (refresh_decode_fails settings db _ _ _ _ H).
  - intros token payload user_id Hd _ Hs _ Hu.
    rewrite (refresh_decoded settings db _ _ _ _ _ Hd Hs).
    destruct Hu as [-> | (u & -> & ->)]; reflexivity.
  - reflexivity.
Qed.

Lemma refresh_failures_witness :
  refresh (J := Ref.jose) (Py := Ref.pydantic) default_settings sample_db
    60000000 61000000 "not.a.valid.token" =
  Raise refresh_token_error
  /\ refresh (J := Ref.jose) (Py := Ref.pydantic) default_settings sample_db
       60000000 61000000
       (create_refresh_token (J := Ref.jose) default_settings 0 9) =
     Raise refresh_user_error
  /\ refresh (J := Ref.jose) (Py := Ref.pydantic) default_settings sample_db
       700000000000 700000000000
       (create_refresh_token (J := Ref.jose) default_settings 0 1) =
     Raise refresh_token_error.
Proof.
  destruct (refresh_failures (J := Ref.jose) (Py := Ref.pydantic)
              default_settings RefFacts.jose_ok sample_db 60000000 61000000)
    as (H1 & _ & _ & H4 & _).
  destruct (refresh_failures (J := Ref.jose) (Py := Ref.pydantic)
              default_settings RefFacts.jose_ok sample_db
              700000000000 700000000000)
    as (_ & _ & H3 & _).
  split; [|split].
  - apply (H1 "not.a.valid.token"
             (JWTError "Invalid token: Not enough segments")).
    vm_compute. reflexivity.
  - apply (H4 _ {| sub := "9"; exp := 604800; iat := 0; type := Refresh |} 9).
    + vm_compute. reflexivity.
    + split; [reflexivity | simpl; lia].
    + reflexivity.
    + unfold id_in_range. lia.
    + left. reflexivity.
  - apply H3.
    + unfold clock_in_range, TTL, timedelta_days. simpl. lia.
    + vm_compute. reflexivity.
Defined.

(** C5, counterexample to the single generic condition: a valid refresh
    token of the inactive user 2 and a malformed token are both refused,
    with different responses. *)
Lemma refresh_failures_differ :
  refresh (J := Ref.jose) (Py := Ref.pydantic) default_settings sample_db
    60000000 61000000
    (create_refresh_token (J := Ref.jose) default_settings 0 2) =
  Raise refresh_user_error
  /\ refresh (J := Ref.jose) (Py := Ref.pydantic) default_settings sample_db
       60000000 61000000 "not.a.valid.token" =
     Raise refresh_token_error
  /\ refresh_user_error <> refresh_token_error.
Proof.
  split; [vm_compute; reflexivity|].
  split; [vm_compute; reflexivity|].
  discriminate.
Qed.

(** ** Login *)




(** C3 (as the code has it). When the email lookup finds no record,
    [authenticate_user] returns at once: the hasher is not called at all
    and the login fails with the generic credential error. The hasher is
    called, exactly once and against the stored hash, only when a record
    exists. *)
Theorem unknown_email_skips_hasher
    {J : Jose} {P : Passlib} (settings : Settings) (db : Db)
    (now_a now_r : datetime) (e password : string) :
  (get_user_by_email db e = None ->
   trace (authenticate_user db e password) = []
   /\ outcome (authenticate_user db e password) = Ok None
   /\ trace (login_user settings db now_a now_r e password) = []
   /\ outcome (login_user settings db now_a now_r e password) =
      Raise invalid_credentials)
  /\ (forall u,
        get_user_by_email db e = Some u ->
        trace (authenticate_user db e password) =
          [PwdVerify password (hashed_password u)]
        /\ trace (login_user settings db now_a now_r e password) =
             [PwdVerify password (hashed_password u)]).
Proof.
  split.
  - intros H. rewrite (authenticate_user_absent db _ _ H).
    rewrite (login_user_absent settings db _ _ _ _ H). repeat split.
  - intros u H.
    destruct (pwd_context_verify password (hashed_password u)) as [b|x] eqn:Hv.
    + rewrite (authenticate_user_checked db _ _ _ _ H Hv).
      destruct b.
      * rewrite (login_user_verified settings db _ _ _ _ _ H Hv). split; reflexivity.
      * rewrite (login_user_wrong_password settings db _ _ _ _ _ H Hv).
        split; reflexivity.
    + rewrite (authenticate_user_raises db _ _ _ _ H Hv).
      rewrite (login_user_raises settings db _ _ _ _ _ _ H Hv). split; reflexivity.
Qed.

Lemma unknown_email_skips_hasher_witness :
  trace (login_user (J := Ref.jose) (P := Ref.passlib) default_settings
           sample_db 0 0 "nobody@x.com" "P@ss1234") = [].
Proof.
  refine (proj1 (proj2 (proj2 (proj1 (unknown_email_skips_hasher
            (J := Ref.jose) (P := Ref.passlib) default_settings sample_db 0 0
            "nobody@x.com" "P@ss1234") _)))).
  vm_compute. reflexivity.
Defined.

(** C3, counterexample to the hasher being called on an absent record:
    the login of an unknown email makes no call into the hasher, the
    login of a known email with a wrong password makes one. *)
Lemma unknown_email_no_hasher_call :
  get_user_by_email sample_db "nobody@x.com" = None
  /\ trace (login_user (J := Ref.jose) (P := Ref.passlib) default_settings
              sample_db 0 0 "nobody@x.com" "P@ss1234") = []
  /\ trace (login_user (J := Ref.jose) (P := Ref.passlib) default_settings
              sample_db 0 0 "a@x.com" "wrong") =
     [PwdVerify "wrong" sample_hash].
Proof. repeat split; vm_compute; reflexivity. Qed.

(** C6 (as the code has it). Login of a user whose active flag is false,
    with a password the hasher accepts, fails with [InactiveUserError]:
    its class and its detail text [Inactive user account] differ from
    those of the generic credential error, but it is a subclass of
    [AuthenticationError] and carries the same status 401 and the same
    headers, not the forbidden status 403. *)
Theorem inactive_login_error
    {J : Jose} {P : Passlib} (settings : Settings) (db : Db)
    (now_a now_r : datetime) (e password : string) (u : User)
    (Hknown : get_user_by_email db e = Some u)
    (Hpw : pwd_context_verify password (hashed_password u) = Ok true)
    (Hinactive : is_active u = false) :
  outcome (login_user settings db now_a now_r e password) =
    Raise (HTTPError InactiveUserError)
  /\ cls InactiveUserError = Cls_InactiveUserError
  /\ detail InactiveUserError = "Inactive user account"
  /\ HTTPError InactiveUserError <> invalid_credentials
  /\ status_code InactiveUserError = HTTP_401_UNAUTHORIZED
  /\ status_code InactiveUserError =
     status_code (AuthenticationError "Invalid email or password")
  /\ headers InactiveUserError =
     headers (AuthenticationError "Invalid email or password").
Proof.
  rewrite (login_user_verified settings db _ _ _ _ _ Hknown Hpw), Hinactive.
  repeat split. discriminate.
Qed.

Lemma inactive_login_error_witness :
  outcome (login_user (J := Ref.jose) (P := Ref.passlib) default_settings
             sample_db 0 0 "inactive@example.com" "SecurePass") =
  Raise (HTTPError InactiveUserError).
Proof.
  refine (proj1 (inactive_login_error (J := Ref.jose) (P := Ref.passlib)
            default_settings sample_db 0 0 "inactive@example.com" "SecurePass"
            {| id := 2; email := "inactive@example.com";
               hashed_password := sample_hash; is_active := false |} _ _ _));
    vm_compute; reflexivity.
Defined.

(** C6, counterexample to the forbidden-class rendering: the failure of
    an inactive user's login carries status 401, the status of the
    credential failures, and not 403. *)
Lemma inactive_login_is_401 :
  exists h,
    outcome (login_user (J := Ref.jose) (P := Ref.passlib) default_settings
               sample_db 0 0 "inactive@example.com" "SecurePass") =
    Raise (HTTPError h)
    /\ status_code h = 401
    /\ status_code h <> HTTP_403_FORBIDDEN
    /\ status_code h =
       status_code (AuthenticationError "Invalid email or password").
Proof.
  exists InactiveUserError. repeat split; try (vm_compute; reflexivity).
  vm_compute. discriminate.
Qed.

(** ** Credential hasher *)

Lemma oversize_false secret :
  (py_len secret <= MAX_PASSWORD_SIZE)%nat -> oversize secret = false.
Proof. intros H. unfold oversize. apply Nat.ltb_ge, H. Qed.

Lemma oversize_true secret :
  (MAX_PASSWORD_SIZE < py_len secret)%nat -> oversize secret = true.
Proof. intros H. unfold oversize. apply Nat.ltb_lt, H. Qed.



Lemma hash_password_outcome {P : Passlib} salt secret :
  outcome (hash_password salt secret) = pwd_context_hash salt secret.
Proof.
  unfold hash_password, bind, emit, lift, outcome. simpl.
  destruct (pwd_context_hash salt secret); reflexivity.
Qed.

(** C8 (the code departs from the claim). When the stored hash of an
    existing record is not a hash of the scheme, [verify_password]
    raises instead of returning [False], and neither [authenticate_user]
    nor [login_user] catches the exception: the login ends with
    passlib's error, which is not the generic credential failure a wrong
    password produces. *)
Theorem malformed_hash_escapes_login
    {J : Jose} {P : Passlib} (settings : Settings) (db : Db)
    (now_a now_r : datetime) (e password : string) (u : User)
    (Hknown : get_user_by_email db e = Some u)
    (Hbad : phc_parse (hashed_password u) = None) :
  outcome (verify_password password (hashed_password u)) =
    Raise (UnknownHashError (hashed_password u))
  /\ outcome (login_user settings db now_a now_r e password) =
       Raise (UnknownHashError (hashed_password u))
  /\ outcome (login_user settings db now_a now_r e password) <>
       Raise invalid_credentials.
Proof.
  assert (Hv : pwd_context_verify password (hashed_password u) =
               Raise (UnknownHashError (hashed_password u))).
  { unfold pwd_context_verify. rewrite Hbad. reflexivity. }
  rewrite (login_user_raises settings db _ _ _ _ _ _ Hknown Hv).
  unfold verify_password, bind, emit, lift, outcome. simpl. rewrite Hv.
  repeat split. discriminate.
Qed.

Lemma malformed_hash_escapes_login_witness :
  outcome (login_user (J := Ref.jose) (P := Ref.passlib) default_settings
             sample_db 0 0 "legacy@example.com" "SecurePass") =
  Raise (UnknownHashError "not-a-hash").
Proof.
  refine (proj1 (proj2 (malformed_hash_escapes_login (J := Ref.jose)
            (P := Ref.passlib) default_settings sample_db 0 0
            "legacy@example.com" "SecurePass"
            {| id := 3; email := "legacy@example.com";
               hashed_password := "not-a-hash"; is_active := true |} _ _)));
    vm_compute; reflexivity.
Defined.




Example hash_verify_examples :
  outcome (verify_password (P := Ref.passlib) "SecurePass" sample_hash) = Ok true
  /\ outcome (verify_password (P := Ref.passlib) "WrongPass" sample_hash) = Ok false
  /\ outcome (verify_password (P := Ref.passlib) "securepass" sample_hash) = Ok false
  /\ outcome (hash_password (P := Ref.passlib) "NaCl" "SecurePass") <>
     outcome (hash_password (P := Ref.passlib) "KCl" "SecurePass").
Proof. repeat split; vm_compute; try reflexivity. discriminate. Qed.

(** ** Concrete runs from the test suite *)

Example settings_secret_length :
  Settings_init default_settings = Some default_settings
  /\ Settings_init
       {| SECRET_KEY := "too-short"; ALGORITHM := "HS256";
          ACCESS_TOKEN_EXPIRE_MINUTES := 30; REFRESH_TOKEN_EXPIRE_DAYS := 7 |}
     = None.
Proof. split; reflexivity. Qed.

Example decode_malformed_tokens :
  (exists m, decode_token (J := Ref.jose) (Py := Ref.pydantic) default_settings
               "not.a.valid.token" Access 0 = Raise (JWTError m))
  /\ (exists m, decode_token (J := Ref.jose) (Py := Ref.pydantic) default_settings
                  "malformed" Access 0 = Raise (JWTError m))
  /\ (exists m, decode_token (J := Ref.jose) (Py := Ref.pydantic) default_settings
                  "" Access 0 = Raise (JWTError m)).
Proof. repeat split; eexists; vm_compute; reflexivity. Qed.

Example decode_forged_signature :
  exists m,
    decode_token (J := Ref.jose) (Py := Ref.pydantic) default_settings
      (jwt_encode (J := Ref.jose) (signed_claims "1" 60 0 Access) "another-key")
      Access 0 = Raise (JWTError m).
Proof. eexists. vm_compute. reflexivity. Qed.

Example login_refresh_scenario :
  let login_out :=
    mkToken (create_access_token (J := Ref.jose) default_settings 0 1)
            (create_refresh_token (J := Ref.jose) default_settings 0 1) in
  outcome (login (J := Ref.jose) (P := Ref.passlib) default_settings
             sample_db 0 0 "a@x.com" "SecurePass") = Ok login_out
  /\ access_token login_out <> refresh_token login_out
  /\ refresh (J := Ref.jose) (Py := Ref.pydantic) default_settings sample_db
       2000000 2000000 (refresh_token login_out) =
     Ok (mkToken (create_access_token (J := Ref.jose) default_settings 2000000 1)
                 (refresh_token login_out))
  /\ create_access_token (J := Ref.jose) default_settings 2000000 1 <>
     access_token login_out
  /\ get_current_user_for_logout (J := Ref.jose) (Py := Ref.pydantic)
       default_settings sample_db 3000000 (access_token login_out) =
     Ok {| id := 1; email := "a@x.com";
           hashed_password := sample_hash; is_active := true |}.
Proof.
  repeat split; try (vm_compute; reflexivity); vm_compute; discriminate.
Qed.

(* ================================================================== *)
(** * Further properties of the code *)

(** ** Minting *)

Lemma str_of_int_inj n m : str_of_int n = str_of_int m -> n = m.
Proof.
  intros H. pose proof (int_of_str_str_of_int n) as E.
  rewrite H, int_of_str_str_of_int in E. congruence.
Qed.

Lemma token_type_str_inj k k' : token_type_str k = token_type_str k' -> k = k'.
Proof. destruct k, k'; simpl; intros H; try reflexivity; discriminate H. Qed.

Lemma jws_sign_inj {J : Jose} (HJ : jose_contract J) c c' key :
  claims_wf c = true -> claims_wf c' = true ->
  jws_sign c key = jws_sign c' key -> c = c'.
Proof.
  intros Hc Hc' H. pose proof (HJ c key Hc) as E.
  rewrite H, (HJ c' key Hc') in E. congruence.
Qed.

Lemma mint_inj {J : Jose} (HJ : jose_contract J) settings k k' t t' s s' :
  mint settings k t s = mint settings k' t' s' ->
  k = k' /\ s = s' /\ int_timestamp t = int_timestamp t' /\
  int_timestamp (t + TTL settings k) = int_timestamp (t' + TTL settings k').
Proof.
  rewrite !mint_signed. unfold jwt_encode. intros H.
  apply (jws_sign_inj HJ) in H; [|reflexivity|reflexivity].
  unfold signed_claims in H. injection H as Hs He Hi Hk.
  apply str_of_int_inj in Hs. apply token_type_str_inj in Hk. auto.
Qed.

Lemma TTL_lifetime settings k :
  TTL settings k = lifetime_seconds settings k * 1000000.
Proof.
  destruct k; unfold TTL, lifetime_seconds, timedelta_minutes, timedelta_days;
    lia.
Qed.

Lemma int_timestamp_nonneg t : 0 <= t -> int_timestamp t = t / 1000000.
Proof. intros H. unfold int_timestamp. apply Z.quot_div_nonneg; lia. Qed.

Lemma int_timestamp_expiry settings k t :
  0 <= t -> 0 <= TTL settings k ->
  int_timestamp (t + TTL settings k) =
  t / 1000000 + lifetime_seconds settings k.
Proof.
  intros Ht Hk. rewrite int_timestamp_nonneg by lia.
  rewrite TTL_lifetime. apply Z.div_add. lia.
Qed.

(** X1. When two minted tokens are the same string. For clock readings
    on which the whole seconds written into a token are exact
    ([clock_in_range], for both minting times and both expiry times),
    two calls of the minting functions return the same token exactly
    when they mint the same kind for the same user id within the same
    whole second: a different user, a different kind or a different
    second always gives a different token. *)
Theorem mint_eq_iff
    {J : Jose} (settings : Settings) (HJ : jose_contract J)
    (k k' : token_type) (t t' : datetime) (s s' : Z)
    (Ht : clock_in_range t) (Ht' : clock_in_range t')
    (Hexp : clock_in_range (t + TTL settings k))
    (Hexp' : clock_in_range (t' + TTL settings k')) :
  mint settings k t s = mint settings k' t' s' <->
  k = k' /\ s = s' /\ t / 1000000 = t' / 1000000.
Proof.
  split.
  - intros H. apply (mint_inj HJ) in H as (Hkk & Hs & Hi & _).
    rewrite !int_timestamp_nonneg in Hi by apply Ht || apply Ht'. auto.
  - intros (<- & <- & Hi). rewrite !mint_signed.
    rewrite (int_timestamp_nonneg (t + _)) by apply Hexp.
    rewrite (int_timestamp_nonneg (t' + _)) by apply Hexp'.
    rewrite !int_timestamp_nonneg by apply Ht || apply Ht'.
    rewrite TTL_lifetime, !Z.div_add, Hi by lia. reflexivity.
Qed.

Lemma mint_eq_iff_witness :
  mint (J := Ref.jose) default_settings Access 1200000 7 =
  mint (J := Ref.jose) default_settings Access 1900000 7
  /\ mint (J := Ref.jose) default_settings Access 1200000 7 <>
     mint (J := Ref.jose) default_settings Access 2000000 7.
Proof.
  split.
  - apply (mint_eq_iff (J := Ref.jose) default_settings RefFacts.jose_ok
             Access Access 1200000 1900000 7 7);
      try (unfold clock_in_range, TTL, timedelta_minutes; simpl; lia).
    repeat split.
  - intros H.
    apply (mint_eq_iff (J := Ref.jose) default_settings RefFacts.jose_ok
             Access Access 1200000 2000000 7 7) in H;
      try (unfold clock_in_range, TTL, timedelta_minutes; simpl; lia).
    destruct H as (_ & _ & H). vm_compute in H. discriminate H.
Defined.

(** X2. The payload of a minted token. For clock readings on which the
    whole seconds written into a token are exact ([clock_in_range], for
    the minting time and the expiry time) and a lifetime that is not
    negative, a token decoded inside its window has
    [iat] equal to the whole second of minting and [exp] exactly the
    configured lifetime later (60 seconds per configured minute for an
    access token, 86400 per configured day for a refresh token); so
    [exp >= iat], with equality only for a lifetime of zero. *)
Theorem minted_payload_lifetime
    {J : Jose} {Py : Pydantic} (settings : Settings) (HJ : jose_contract J)
    (k : token_type) (s : Z) (t t' : datetime)
    (Ht : clock_in_range t) (Hexp : clock_in_range (t + TTL settings k))
    (Hk : 0 <= TTL settings k)
    (Hwin : t <= t' <= t + TTL settings k) :
  exists p,
    decode_token settings (mint settings k t s) k t' = Ok p
    /\ iat p = t / 1000000
    /\ exp p = iat p + lifetime_seconds settings k
    /\ iat p <= exp p
    /\ (exp p = iat p <-> lifetime_seconds settings k = 0).
Proof.
  eexists. split.
  - rewrite (decode_token_mint settings HJ).
    destruct Hwin as [_ H]. apply timegm_le_int_timestamp in H.
    destruct (Z.ltb_spec (int_timestamp (t + TTL settings k)) (timegm_utc t'));
      [lia|].
    rewrite token_type_eqb_refl. reflexivity.
  - simpl. destruct Ht as [Ht0 _].
    rewrite int_timestamp_expiry, int_timestamp_nonneg by assumption.
    rewrite TTL_lifetime in Hk. repeat split; lia.
Qed.

Lemma minted_payload_lifetime_witness :
  exists p,
    decode_token (J := Ref.jose) (Py := Ref.pydantic) default_settings
      (mint (J := Ref.jose) default_settings Refresh 5500000 7) Refresh 9000000 =
    Ok p
    /\ iat p = 5 /\ exp p = 5 + 604800.
Proof.
  destruct (minted_payload_lifetime (J := Ref.jose) (Py := Ref.pydantic)
              default_settings RefFacts.jose_ok Refresh 7 5500000 9000000)
    as (p & Hd & Hi & He & _).
  - unfold clock_in_range. lia.
  - unfold clock_in_range, TTL, timedelta_days. simpl. lia.
  - vm_compute. discriminate.
  - unfold TTL, timedelta_days. simpl. lia.
  - exists p. split; [exact Hd|]. split.
    + rewrite Hi. reflexivity.
    + rewrite He, Hi. reflexivity.
Defined.

(** ** What [decode_token] accepts *)


(** X3. What an accepted token is. Whenever [decode_token] returns a
    payload, the token's signature verified under the configured key,
    its claims hold the four members [sub], [exp], [iat] and [type],
    [sub] is a text and is returned as it is, the token is of the
    expected kind, and its [exp] claim is not before the verifier's
    whole-second clock: a token without expiry, of the other kind or
    past its expiry is never accepted. *)
Theorem decode_token_accepts_only
    {J : Jose} {Py : Pydantic} (settings : Settings)
    (token : string) (expected : token_type) (now : datetime)
    (tp : TokenPayload)
    (Hok : decode_token settings token expected now = Ok tp) :
  type tp = expected
  /\ exists c,
       jws_verify token (SECRET_KEY settings) = inr c
       /\ get "sub" c = Some (JStr (sub tp))
       /\ get "type" c = Some (JStr (token_type_str expected))
       /\ (exists v, get "iat" c = Some v)
       /\ (exists v e, get "exp" c = Some v /\ claim_int v = Some e
                       /\ timegm_utc now <= e).
Proof.
  destruct (decode_token_cases settings token expected now)
    as [(tp' & c & Hd & Hj & Hv & Hp & Hk) | (msg & Hd)];
    rewrite Hd in Hok; [|discriminate Hok].
  injection Hok as ->.
  destruct (TokenPayload_validate_members c tp Hp)
    as (Hs & (ve & Hve & _) & (vi & Hvi & _) & Ht).
  destruct (validate_exp_live c _ ve (validate_claims_exp c _ Hv) Hve)
    as (e & He & Hle).
  split; [exact Hk|]. exists c. rewrite <- Hk.
  repeat split; eauto.
Qed.

Lemma decode_token_accepts_only_witness :
  type {| sub := "7"; exp := 1800; iat := 0; type := Access |} = Access.
Proof.
  refine (proj1 (decode_token_accepts_only (J := Ref.jose) (Py := Ref.pydantic)
                   default_settings
                   (mint (J := Ref.jose) default_settings Access 0 7)
                   Access 900000000 _ _)).
  vm_compute. reflexivity.
Defined.

(** ** Protected endpoints *)

Section AuthorizeFacts.

Context {J : Jose} {Py : Pydantic}.
Variable settings : Settings.
Variable db : Db.

Lemma get_current_user_decoded now token tp :
  decode_token settings token Access now = Ok tp ->
  get_current_user settings db now token =
  match int_of_str (sub tp) with
  | None => Raise (ValueError (sub tp))
  | Some user_id =>
      match get_user_by_id db user_id with
      | None =>
          Raise (HTTPError
                   (HTTPException HTTP_404_NOT_FOUND "User not found" None))
      | Some user => Ok user
      end
  end.
Proof.
  intros H. unfold get_current_user, py_int. rewrite H.
  destruct (int_of_str (sub tp)); reflexivity.
Qed.

Lemma get_current_user_refused now token msg :
  decode_token settings token Access now = Raise (JWTError msg) ->
  get_current_user settings db now token =
  Raise (HTTPError (HTTPException HTTP_401_UNAUTHORIZED msg bearer_headers)).
Proof. intros H. unfold get_current_user. rewrite H. reflexivity. Qed.

End AuthorizeFacts.

(** X4. [get_current_user] returns a user only for a token that decodes as
    an access token, and the user is a row of the table whose id is the
    integer the token's subject denotes. *)
Theorem get_current_user_sound
    {J : Jose} {Py : Pydantic} (settings : Settings) (db : Db)
    (now : datetime) (token : string) (u : User)
    (Hok : get_current_user settings db now token = Ok u) :
  In u db
  /\ exists tp,
       decode_token settings token Access now = Ok tp
       /\ int_of_str (sub tp) = Some (id u).
Proof.
  destruct (decode_token_cases settings token Access now)
    as [(tp & c & Hd & _) | (msg & Hd)].
  - rewrite (get_current_user_decoded settings db _ _ _ Hd) in Hok.
    destruct (int_of_str (sub tp)) as [uid|] eqn:Hs; [|discriminate Hok].
    destruct (get_user_by_id db uid) as [u'|] eqn:Hu; [|discriminate Hok].
    injection Hok as ->.
    pose proof (get_user_by_id_sound _ _ _ Hu) as Hid.
    unfold get_user_by_id in Hu. apply find_some in Hu as [Hin _].
    split; [exact Hin|]. exists tp. rewrite Hid. auto.
  - rewrite (get_current_user_refused settings db _ _ _ Hd) in Hok.
    discriminate Hok.
Qed.

Lemma get_current_user_sound_witness :
  In {| id := 1; email := "a@x.com";
        hashed_password := sample_hash; is_active := true |} sample_db.
Proof.
  refine (proj1 (get_current_user_sound (J := Ref.jose) (Py := Ref.pydantic)
                   default_settings sample_db 60000000
                   (create_access_token (J := Ref.jose) default_settings 0 1)
                   _ _)).
  vm_compute. reflexivity.
Defined.



Lemma get_current_user_for_logout_eq
    {J : Jose} {Py : Pydantic} (settings : Settings) (db : Db)
    (now : datetime) (token : string) :
  get_current_user_for_logout settings db now token =
  rbind (get_current_user settings db now token) get_current_active_user.
Proof.
  unfold get_current_user_for_logout, get_current_user, get_current_active_user.
  destruct (decode_token settings token Access now) as [tp|[msg|lit|h| |e]];
    try reflexivity.
  destruct (py_int (sub tp)) as [uid|x]; [|reflexivity]. simpl.
  destruct (get_user_by_id db uid) as [u|]; reflexivity.
Qed.

(** X6. The dependency of the logout route is the composition of the two
    shared dependencies: on every table, clock and token,
    [get_current_user_for_logout] ends as [get_current_user] followed by
    [get_current_active_user] does - same user, or same exception with
    the same status, detail and headers. *)
Theorem logout_dependency_is_composition
    {J : Jose} {Py : Pydantic} (settings : Settings) (db : Db)
    (now : datetime) (token : string) :
  get_current_user_for_logout settings db now token =
  rbind (get_current_user settings db now token) get_current_active_user.
Proof.
  unfold get_current_user_for_logout, get_current_user, get_current_active_user.
  destruct (decode_token settings token Access now) as [tp|[msg|lit|h| |e]];
    try reflexivity.
  destruct (py_int (sub tp)) as [uid|x]; [|reflexivity]. simpl.
  destruct (get_user_by_id db uid) as [u|]; reflexivity.
Qed.

(** X7. The logout route on an access token minted for a user id the id
    column can hold, with an expiry time on which the whole second
    written into the token is exact ([clock_in_range]), in full: past
    the expiry second the answer is 401 with the expiry message and the
    bearer challenge; otherwise 404 when the user id has no row, 403
    when the row is inactive, and 204 when it is active. A minted
    refresh token inside its window is refused with 401 and the
    wrong-type message. *)
Theorem logout_on_minted_token
    {J : Jose} {Py : Pydantic} (settings : Settings) (HJ : jose_contract J)
    (db : Db) (t now : datetime) (s : Z) :
  (clock_in_range (t + TTL settings Access) -> id_in_range s ->
   logout_endpoint settings db now (create_access_token settings t s) =
    (if int_timestamp (t + TTL settings Access) <? timegm_utc now then
       Raise (HTTPError (HTTPException HTTP_401_UNAUTHORIZED
                           "Invalid token: Signature has expired."
                           bearer_headers))
     else
       match get_user_by_id db s with
       | None =>
           Raise (HTTPError
                    (HTTPException HTTP_404_NOT_FOUND "User not found" None))
       | Some u =>
           if is_active u then Ok HTTP_204_NO_CONTENT
           else Raise (HTTPError (HTTPException HTTP_403_FORBIDDEN
                                    "Inactive user account" None))
       end))
  /\ (timegm_utc now <= int_timestamp (t + TTL settings Refresh) ->
      logout_endpoint settings db now (create_refresh_token settings t s) =
      Raise (HTTPError (HTTPException HTTP_401_UNAUTHORIZED
                          "Invalid token type. Expected access, got refresh"
                          bearer_headers))).
Proof.
  split.
  - intros _ _. unfold logout_endpoint, get_current_user_for_logout.
    change (create_access_token settings t s) with (mint settings Access t s).
    rewrite (decode_token_mint settings HJ).
    destruct (_ <? _); [reflexivity|]. simpl.
    unfold py_int. rewrite int_of_str_str_of_int. simpl.
    destruct (get_user_by_id db s) as [u|]; [|reflexivity].
    destruct (is_active u); reflexivity.
  - intros Hlive. unfold logout_endpoint, get_current_user_for_logout.
    change (create_refresh_token settings t s) with (mint settings Refresh t s).
    rewrite (decode_token_mint settings HJ).
    destruct (Z.ltb_spec (int_timestamp (t + TTL settings Refresh))
                (timegm_utc now)); [lia|].
    reflexivity.
Qed.

Lemma logout_on_minted_token_witness :
  logout_endpoint (J := Ref.jose) (Py := Ref.pydantic) default_settings
    sample_db 60000000
    (create_access_token (J := Ref.jose) default_settings 0 2) =
  Raise (HTTPError (HTTPException HTTP_403_FORBIDDEN
                      "Inactive user account" None)).
Proof.
  refine (proj1 (logout_on_minted_token (J := Ref.jose) (Py := Ref.pydantic)
                   default_settings RefFacts.jose_ok sample_db 0 60000000 2)
            _ _).
  - unfold clock_in_range, TTL, timedelta_minutes. simpl. lia.
  - unfold id_in_range. lia.
Defined.

(** ** The user table under its schema constraints *)

Lemma find_first_unique {A K : Type} (key : A -> K) (eqb : K -> K -> bool)
    (eqb_eq : forall a b, eqb a b = true <-> a = b)
    (l : list A) (k : K) (u : A) :
  NoDup (map key l) -> In u l -> key u = k ->
  find (fun x => eqb (key x) k) l = Some u.
Proof.
  induction l as [|x l IH]; simpl; intros Hnd Hin Hk; [contradiction|].
  inversion Hnd as [|? ? Hx Hnd']; subst.
  destruct (eqb (key x) (key u)) eqn:E.
  - apply eqb_eq in E. destruct Hin as [->|Hin]; [reflexivity|].
    exfalso. apply Hx. rewrite E. apply in_map, Hin.
  - destruct Hin as [->|Hin].
    + assert (eqb (key u) (key u) = true) by (apply eqb_eq; reflexivity).
      congruence.
    + apply IH; auto.
Qed.

Lemma get_user_by_id_unique (db : Db) u :
  NoDup (map id db) -> In u db -> get_user_by_id db (id u) = Some u.
Proof.
  intros Hnd Hin. unfold get_user_by_id.
  apply (find_first_unique id Z.eqb Z.eqb_eq); auto.
Qed.

Lemma get_user_by_email_unique (db : Db) u :
  NoDup (map email db) -> In u db -> get_user_by_email db (email u) = Some u.
Proof.
  intros Hnd Hin. unfold get_user_by_email.
  apply (find_first_unique email String.eqb String.eqb_eq); auto.
Qed.

Lemma get_user_by_email_in (db : Db) e u :
  get_user_by_email db e = Some u -> In u db.
Proof. unfold get_user_by_email. intros H. apply find_some in H. tauto. Qed.

Lemma get_user_by_id_in (db : Db) i u :
  get_user_by_id db i = Some u -> In u db.
Proof. unfold get_user_by_id. intros H. apply find_some in H. tauto. Qed.

Lemma get_user_by_email_none (db : Db) e :
  get_user_by_email db e = None <-> (forall u, In u db -> email u <> e).
Proof.
  unfold get_user_by_email. split.
  - intros H u Hin He.
    pose proof (find_none _ _ H u Hin) as Hf. simpl in Hf.
    apply String.eqb_neq in Hf. contradiction.
  - intros H. destruct (find _ db) as [u|] eqn:Hf; [|reflexivity].
    apply find_some in Hf as [Hin He]. apply String.eqb_eq in He.
    exfalso. exact (H u Hin He).
Qed.

Lemma get_user_by_id_none (db : Db) i :
  get_user_by_id db i = None <-> (forall u, In u db -> id u <> i).
Proof.
  unfold get_user_by_id. split.
  - intros H u Hin He.
    pose proof (find_none _ _ H u Hin) as Hf. simpl in Hf.
    apply Z.eqb_neq in Hf. contradiction.
  - intros H. destruct (find _ db) as [u|] eqn:Hf; [|reflexivity].
    apply find_some in Hf as [Hin He]. apply Z.eqb_eq in He.
    exfalso. exact (H u Hin He).
Qed.

(** X8. The two lookups do not depend on the order in which the database
    returns the rows: when [id] and [email] are keys of the table, as the
    model declares, any reordering of the rows gives the same answer to
    [get_user_by_email] and to [get_user_by_id], although both take the
    first row of an unordered query. *)
Theorem lookups_ignore_row_order
    (db db' : Db) (Hkeys : Db_keys db) (Hperm : Permutation db db')
    (e : string) (i : Z) :
  get_user_by_email db' e = get_user_by_email db e
  /\ get_user_by_id db' i = get_user_by_id db i.
Proof.
  destruct Hkeys as [Hid Hem].
  assert (Hid' : NoDup (map id db'))
    by (eapply Permutation_NoDup; [apply Permutation_map, Hperm | exact Hid]).
  assert (Hem' : NoDup (map email db'))
    by (eapply Permutation_NoDup; [apply Permutation_map, Hperm | exact Hem]).
  split.
  - destruct (get_user_by_email db e) as [u|] eqn:Hu.
    + pose proof (get_user_by_email_sound _ _ _ Hu) as <-.
      apply get_user_by_email_unique; [exact Hem'|].
      eapply Permutation_in; [exact Hperm|].
      eapply get_user_by_email_in, Hu.
    + apply get_user_by_email_none. intros u Hin.
      apply (proj1 (get_user_by_email_none db e) Hu).
      eapply Permutation_in; [apply Permutation_sym, Hperm | exact Hin].
  - destruct (get_user_by_id db i) as [u|] eqn:Hu.
    + pose proof (get_user_by_id_sound _ _ _ Hu) as <-.
      apply get_user_by_id_unique; [exact Hid'|].
      eapply Permutation_in; [exact Hperm|].
      eapply get_user_by_id_in, Hu.
    + apply get_user_by_id_none. intros u Hin.
      apply (proj1 (get_user_by_id_none db i) Hu).
      eapply Permutation_in; [apply Permutation_sym, Hperm | exact Hin].
Qed.

Lemma sample_db_keys : Db_keys sample_db.
Proof.
  split; simpl; repeat constructor; simpl; intuition discriminate.
Defined.

Lemma lookups_ignore_row_order_witness :
  get_user_by_email (rev sample_db) "inactive@example.com" =
  get_user_by_email sample_db "inactive@example.com"
  /\ get_user_by_id (rev sample_db) 3 = get_user_by_id sample_db 3.
Proof.
  apply (lookups_ignore_row_order sample_db (rev sample_db) sample_db_keys).
  apply Permutation_rev.
Defined.

(** ** Login *)

Section ServiceFacts.

Context {J : Jose} {P : Passlib}.
Variable settings : Settings.
Variable db : Db.

Lemma authenticate_user_cases e password :
  match get_user_by_email db e with
  | None => authenticate_user db e password = ([], Ok None)
  | Some u =>
      authenticate_user db e password =
      ([PwdVerify password (hashed_password u)],
       match pwd_context_verify password (hashed_password u) with
       | Ok true => Ok (Some u)
       | Ok false => Ok None
       | Raise x => Raise x
       end)
  end.
Proof.
  destruct (get_user_by_email db e) as [u|] eqn:Hu.
  - destruct (pwd_context_verify password (hashed_password u)) as [[|]|x] eqn:Hv.
    + apply (authenticate_user_checked db _ _ _ _ Hu Hv).
    + apply (authenticate_user_checked db _ _ _ _ Hu Hv).
    + apply (authenticate_user_raises db _ _ _ _ Hu Hv).
  - apply (authenticate_user_absent db _ _ Hu).
Qed.

End ServiceFacts.

(** X9. [authenticate_user] returns a user exactly when that user is the
    record stored under the submitted email and the hasher accepts the
    submitted password against its stored hash; the user it returns
    always carries the submitted email. *)
Theorem authenticate_user_sound
    {P : Passlib} (db : Db) (e password : string) (u : User) :
  (outcome (authenticate_user db e password) = Ok (Some u) <->
   get_user_by_email db e = Some u
   /\ pwd_context_verify password (hashed_password u) = Ok true)
  /\ (outcome (authenticate_user db e password) = Ok (Some u) ->
      email u = e /\ In u db).
Proof.
  assert (Hiff : outcome (authenticate_user db e password) = Ok (Some u) <->
                 get_user_by_email db e = Some u
                 /\ pwd_context_verify password (hashed_password u) = Ok true).
  { pose proof (authenticate_user_cases db e password) as Hc.
    destruct (get_user_by_email db e) as [u'|] eqn:Hu; rewrite Hc;
      unfold outcome; simpl.
    - split.
      + destruct (pwd_context_verify password (hashed_password u'))
          as [[|]|x] eqn:Hv; intros H; try discriminate H.
        injection H as <-. auto.
      + intros [[= <-] Hv]. rewrite Hv. reflexivity.
    - split; [discriminate | intros [H _]; discriminate H]. }
  split; [exact Hiff|].
  intros H. apply Hiff in H as [Hu _]. split.
  - eapply get_user_by_email_sound, Hu.
  - eapply get_user_by_email_in, Hu.
Qed.

Lemma authenticate_user_sound_witness :
  email {| id := 1; email := "a@x.com";
           hashed_password := sample_hash; is_active := true |} = "a@x.com"
  /\ In {| id := 1; email := "a@x.com";
           hashed_password := sample_hash; is_active := true |} sample_db.
Proof.
  refine (proj2 (authenticate_user_sound (P := Ref.passlib) sample_db
                   "a@x.com" "SecurePass" _) _).
  vm_compute. reflexivity.
Defined.

Lemma login_user_ok_iff
    {J : Jose} {P : Passlib} (settings : Settings) (db : Db)
    (now_a now_r : datetime) (e password : string) (tok : Token) :
  outcome (login_user settings db now_a now_r e password) = Ok tok <->
  exists u,
    get_user_by_email db e = Some u
    /\ pwd_context_verify password (hashed_password u) = Ok true
    /\ is_active u = true
    /\ tok = {| access_token := create_access_token settings now_a (id u);
                refresh_token := create_refresh_token settings now_r (id u);
                token_type_field := "bearer" |}.
Proof.
  split.
  - intros H.
    destruct (get_user_by_email db e) as [u|] eqn:Hu.
    + destruct (pwd_context_verify password (hashed_password u))
        as [[|]|x] eqn:Hv.
      * rewrite (login_user_verified settings db _ _ _ _ _ Hu Hv) in H.
        unfold outcome in H. simpl in H.
        destruct (is_active u) eqn:Ha; [|discriminate H].
        injection H as <-. exists u. auto.
      * rewrite (login_user_wrong_password settings db _ _ _ _ _ Hu Hv) in H.
        discriminate H.
      * rewrite (login_user_raises settings db _ _ _ _ _ _ Hu Hv) in H.
        discriminate H.
    + rewrite (login_user_absent settings db _ _ _ _ Hu) in H. discriminate H.
  - intros (u & Hu & Hv & Ha & ->).
    rewrite (login_user_verified settings db _ _ _ _ _ Hu Hv), Ha. reflexivity.
Qed.



(** X11. The two tokens of a login response are never the same string,
    whatever the configured lifetimes and the clock. *)
Theorem login_tokens_differ
    {J : Jose} {P : Passlib} (settings : Settings) (HJ : jose_contract J)
    (db : Db) (now_a now_r : datetime) (e password : string) (tok : Token)
    (Hok : outcome (login_user settings db now_a now_r e password) = Ok tok) :
  access_token tok <> refresh_token tok.
Proof.
  apply login_user_ok_iff in Hok as (u & _ & _ & _ & ->). simpl.
  change (mint settings Access now_a (id u) <> mint settings Refresh now_r (id u)).
  intros H. apply (mint_inj HJ) in H as [Hk _]. discriminate Hk.
Qed.

Lemma login_tokens_differ_witness :
  create_access_token (J := Ref.jose) default_settings 0 1 <>
  create_refresh_token (J := Ref.jose) default_settings 0 1.
Proof.
  refine (login_tokens_differ (J := Ref.jose) (P := Ref.passlib)
            default_settings RefFacts.jose_ok sample_db 0 0
            "a@x.com" "SecurePass"
            (mkToken (create_access_token (J := Ref.jose) default_settings 0 1)
                     (create_refresh_token (J := Ref.jose) default_settings 0 1))
            _).
  vm_compute. reflexivity.
Defined.

(** ** Using the tokens *)

Section SessionFacts.

Context {J : Jose} {Py : Pydantic}.
Variable settings : Settings.
Hypothesis HJ : jose_contract J.

Lemma decode_token_mint_live k t now s :
  now <= t + TTL settings k ->
  decode_token settings (mint settings k t s) k now =
  Ok {| sub := str_of_int s;
        exp := int_timestamp (t + TTL settings k);
        iat := int_timestamp t;
        type := k |}.
Proof.
  intros H. rewrite (decode_token_mint settings HJ).
  apply timegm_le_int_timestamp in H.
  destruct (Z.ltb_spec (int_timestamp (t + TTL settings k)) (timegm_utc now));
    [lia|].
  rewrite token_type_eqb_refl. reflexivity.
Qed.

Lemma get_current_user_minted db t now s u :
  now <= t + TTL settings Access ->
  get_user_by_id db s = Some u ->
  get_current_user settings db now (create_access_token settings t s) = Ok u.
Proof.
  intros Hlive Hu.
  change (create_access_token settings t s) with (mint settings Access t s).
  rewrite (get_current_user_decoded settings db _ _ _
             (decode_token_mint_live Access t now s Hlive)).
  simpl. rewrite int_of_str_str_of_int, Hu. reflexivity.
Qed.

Lemma refresh_minted db t now now_mint s u :
  now <= t + TTL settings Refresh ->
  get_user_by_id db s = Some u ->
  is_active u = true ->
  refresh settings db now now_mint (create_refresh_token settings t s) =
  Ok (mkToken (create_access_token settings now_mint s)
              (create_refresh_token settings t s)).
Proof.
  intros Hlive Hu Ha.
  change (create_refresh_token settings t s) with (mint settings Refresh t s).
  rewrite (refresh_decoded settings db _ _ _ _ s
             (decode_token_mint_live Refresh t now s Hlive)
             (int_of_str_str_of_int s)).
  rewrite Hu, Ha, (get_user_by_id_sound _ _ _ Hu). reflexivity.
Qed.

End SessionFacts.



(** X13. Login then authorize. When [id] is a key of the table, the access
    token of a successful login, presented inside its window, makes
    [get_current_user] and the logout dependency return the very record
    that logged in, and the logout route answers 204. *)
Theorem login_then_authorize
    {J : Jose} {Py : Pydantic} {P : Passlib} (settings : Settings)
    (HJ : jose_contract J) (db : Db) (Hid : NoDup (map id db))
    (now_a now_r now : datetime) (e password : string) (tok : Token)
    (Hok : outcome (login_user settings db now_a now_r e password) = Ok tok)
    (Hlive : now <= now_a + TTL settings Access) :
  exists u,
    get_user_by_email db e = Some u
    /\ get_current_user settings db now (access_token tok) = Ok u
    /\ get_current_user_for_logout settings db now (access_token tok) = Ok u
    /\ logout_endpoint settings db now (access_token tok) =
       Ok HTTP_204_NO_CONTENT.
Proof.
  apply login_user_ok_iff in Hok as (u & Hu & _ & Ha & ->). simpl.
  exists u. split; [exact Hu|].
  assert (Hbyid : get_user_by_id db (id u) = Some u)
    by (apply get_user_by_id_unique;
        [exact Hid | eapply get_user_by_email_in, Hu]).
  assert (Hg : get_current_user settings db now
                 (create_access_token settings now_a (id u)) = Ok u)
    by (apply (get_current_user_minted settings HJ db _ _ _ _ Hlive Hbyid)).
  assert (Hl : get_current_user_for_logout settings db now
                 (create_access_token settings now_a (id u)) = Ok u).
  { rewrite get_current_user_for_logout_eq, Hg. simpl.
    unfold get_current_active_user. rewrite Ha. reflexivity. }
  split; [exact Hg|]. split; [exact Hl|].
  unfold logout_endpoint. rewrite Hl. reflexivity.
Qed.

Lemma login_then_authorize_witness :
  exists u,
    get_user_by_email sample_db "a@x.com" = Some u
    /\ get_current_user (J := Ref.jose) (Py := Ref.pydantic) default_settings
         sample_db 60000000
         (access_token
            (mkToken (create_access_token (J := Ref.jose) default_settings 0 1)
                     (create_refresh_token (J := Ref.jose) default_settings 0 1)))
       = Ok u
    /\ get_current_user_for_logout (J := Ref.jose) (Py := Ref.pydantic)
         default_settings sample_db 60000000
         (access_token
            (mkToken (create_access_token (J := Ref.jose) default_settings 0 1)
                     (create_refresh_token (J := Ref.jose) default_settings 0 1)))
       = Ok u
    /\ logout_endpoint (J := Ref.jose) (Py := Ref.pydantic) default_settings
         sample_db 60000000
         (access_token
            (mkToken (create_access_token (J := Ref.jose) default_settings 0 1)
                     (create_refresh_token (J := Ref.jose) default_settings 0 1)))
       = Ok HTTP_204_NO_CONTENT.
Proof.
  apply (login_then_authorize (J := Ref.jose) (Py := Ref.pydantic)
           (P := Ref.passlib) default_settings RefFacts.jose_ok sample_db
           (proj1 sample_db_keys) 0 0 60000000 "a@x.com" "SecurePass").
  - vm_compute. reflexivity.
  - unfold TTL, timedelta_minutes. simpl. lia.
Defined.

(** X14. The refresh flow carries a session past the expiry of the access
    token. After a successful login whose access token has an expiry
    time on which the whole second written into the token is exact
    ([clock_in_range]), at any time when the access token is past its
    expiry second but the refresh token is not past its expiry
    instant, the old access token is refused with 401 and the
    expiry message, while the refresh token - as long as the account is
    still active - is exchanged for a new access token that
    [get_current_user] accepts at that same time. *)
Theorem expired_access_renewed_by_refresh
    {J : Jose} {Py : Pydantic} {P : Passlib} (settings : Settings)
    (HJ : jose_contract J) (db : Db) (Hid : NoDup (map id db))
    (now_a now_r now : datetime) (e password : string) (tok : Token)
    (Hok : outcome (login_user settings db now_a now_r e password) = Ok tok)
    (Hrange : clock_in_range (now_a + TTL settings Access))
    (Hexpired : int_timestamp (now_a + TTL settings Access) < timegm_utc now)
    (Hlive : now <= now_r + TTL settings Refresh)
    (Hpos : 0 <= TTL settings Access) :
  exists u,
    get_user_by_email db e = Some u
    /\ get_current_user settings db now (access_token tok) =
       Raise (HTTPError (HTTPException HTTP_401_UNAUTHORIZED
                           "Invalid token: Signature has expired."
                           bearer_headers))
    /\ refresh settings db now now (refresh_token tok) =
       Ok (mkToken (create_access_token settings now (id u)) (refresh_token tok))
    /\ get_current_user settings db now
         (create_access_token settings now (id u)) = Ok u.
Proof.
  apply login_user_ok_iff in Hok as (u & Hu & _ & Ha & ->). simpl.
  exists u. split; [exact Hu|].
  assert (Hbyid : get_user_by_id db (id u) = Some u)
    by (apply get_user_by_id_unique;
        [exact Hid | eapply get_user_by_email_in, Hu]).
  split; [|split].
  - apply get_current_user_refused.
    change (create_access_token settings now_a (id u))
      with (mint settings Access now_a (id u)).
    rewrite (decode_token_mint settings HJ).
    apply Z.ltb_lt in Hexpired. rewrite Hexpired. reflexivity.
  - apply (refresh_minted settings HJ db _ _ _ _ _ Hlive Hbyid Ha).
  - apply (get_current_user_minted settings HJ db now now (id u) u);
      [lia | exact Hbyid].
Qed.

Lemma expired_access_renewed_by_refresh_witness :
  exists u,
    get_user_by_email sample_db "a@x.com" = Some u
    /\ get_current_user (J := Ref.jose) (Py := Ref.pydantic) default_settings
         sample_db 3600000000
         (create_access_token (J := Ref.jose) default_settings 0 1) =
       Raise (HTTPError (HTTPException HTTP_401_UNAUTHORIZED
                           "Invalid token: Signature has expired."
                           bearer_headers))
    /\ refresh (J := Ref.jose) (Py := Ref.pydantic) default_settings sample_db
         3600000000 3600000000
         (create_refresh_token (J := Ref.jose) default_settings 0 1) =
       Ok (mkToken
             (create_access_token (J := Ref.jose) default_settings 3600000000 (id u))
             (create_refresh_token (J := Ref.jose) default_settings 0 1))
    /\ get_current_user (J := Ref.jose) (Py := Ref.pydantic) default_settings
         sample_db 3600000000
         (create_access_token (J := Ref.jose) default_settings 3600000000 (id u))
       = Ok u.
Proof.
  apply (expired_access_renewed_by_refresh (J := Ref.jose) (Py := Ref.pydantic)
           (P := Ref.passlib) default_settings RefFacts.jose_ok sample_db
           (proj1 sample_db_keys) 0 0 3600000000 "a@x.com" "SecurePass"
           (mkToken (create_access_token (J := Ref.jose) default_settings 0 1)
                    (create_refresh_token (J := Ref.jose) default_settings 0 1))).
  - vm_compute. reflexivity.
  - unfold clock_in_range, TTL, timedelta_minutes. simpl. lia.
  - vm_compute. reflexivity.
  - unfold TTL, timedelta_days. simpl. lia.
  - vm_compute. discriminate.
Defined.

(** ** Registration *)

Lemma find_snoc {A : Type} (f : A -> bool) (l : list A) (x : A) :
  find f (l ++ [x]) =
  match find f l with
  | Some y => Some y
  | None => if f x then Some x else None
  end.
Proof.
  induction l as [|y l IH]; simpl; [reflexivity|].
  destruct (f y); [reflexivity | exact IH].
Qed.

Section RegistrationFacts.

Context {P : Passlib}.
Variable db : Db.
Variables (salt : string) (new_id : Z) (user_create : UserCreate.t).

Lemma create_user_oversize :
  oversize (UserCreate.password user_create) = true ->
  create_user db salt new_id user_create =
  ([PwdHash (UserCreate.password user_create)], Raise PasswordSizeError).
Proof.
  intros Hp.
  unfold create_user, hash_password, pwd_context_hash, bind, emit, lift, ret.
  simpl. rewrite Hp. reflexivity.
Qed.

Lemma create_user_free :
  oversize (UserCreate.password user_create) = false ->
  get_user_by_email db (UserCreate.email user_create) = None ->
  create_user db salt new_id user_create =
  ([PwdHash (UserCreate.password user_create)],
   Ok (Some (registered_user salt new_id user_create,
             (db ++ [registered_user salt new_id user_create])%list))).
Proof.
  intros Hp H.
  unfold create_user, hash_password, pwd_context_hash, bind, emit, lift, ret.
  simpl. rewrite Hp. simpl. rewrite H. reflexivity.
Qed.

Lemma create_user_taken u0 :
  oversize (UserCreate.password user_create) = false ->
  get_user_by_email db (UserCreate.email user_create) = Some u0 ->
  create_user db salt new_id user_create =
  ([PwdHash (UserCreate.password user_create)], Ok None).
Proof.
  intros Hp H.
  unfold create_user, hash_password, pwd_context_hash, bind, emit, lift, ret.
  simpl. rewrite Hp. simpl. rewrite H. reflexivity.
Qed.


Lemma lookup_email_after_insert e :
  get_user_by_email (db ++ [registered_user salt new_id user_create])%list e =
  match get_user_by_email db e with
  | Some y => Some y
  | None =>
      if String.eqb (UserCreate.email user_create) e
      then Some (registered_user salt new_id user_create)
      else None
  end.
Proof. unfold get_user_by_email. rewrite find_snoc. reflexivity. Qed.

Lemma lookup_id_after_insert i :
  get_user_by_id (db ++ [registered_user salt new_id user_create])%list i =
  match get_user_by_id db i with
  | Some y => Some y
  | None =>
      if Z.eqb new_id i then Some (registered_user salt new_id user_create)
      else None
  end.
Proof. unfold get_user_by_id. rewrite find_snoc. reflexivity. Qed.

Lemma insert_keeps_keys :
  get_user_by_email db (UserCreate.email user_create) = None ->
  get_user_by_id db new_id = None ->
  Db_keys db ->
  Db_keys (db ++ [registered_user salt new_id user_create])%list.
Proof.
  intros He Hi [Hid Hem]. unfold Db_keys. rewrite !map_app. simpl.
  split.
  - apply (Permutation_NoDup (Permutation_cons_append _ _)).
    constructor; [|exact Hid].
    intros Hin. apply in_map_iff in Hin as (u & Hu & Hin).
    exact (proj1 (get_user_by_id_none db new_id) Hi u Hin Hu).
  - apply (Permutation_NoDup (Permutation_cons_append _ _)).
    constructor; [|exact Hem].
    intros Hin. apply in_map_iff in Hin as (u & Hu & Hin).
    exact (proj1 (get_user_by_email_none db _) He u Hin Hu).
Qed.

End RegistrationFacts.

(** X15. Insert then look up. When the password is within the hasher's
    size cap, the email is not yet in the table and the database assigns
    a key that is not in use, [create_user] returns an active row with
    that key, that email and the hash of the password, and in the table
    it leaves both lookups find this row; the lookups of every other
    email and every other id answer as before, and [id] and [email]
    remain keys of the table. *)
Theorem create_user_then_lookup
    {P : Passlib} (db : Db) (salt : string) (new_id : Z)
    (user_create : UserCreate.t)
    (Hsize : (py_len (UserCreate.password user_create) <= MAX_PASSWORD_SIZE)%nat)
    (Hemail : get_user_by_email db (UserCreate.email user_create) = None)
    (Hkey : get_user_by_id db new_id = None) :
  exists u db',
    outcome (create_user db salt new_id user_create) = Ok (Some (u, db'))
    /\ id u = new_id
    /\ email u = UserCreate.email user_create
    /\ is_active u = true
    /\ outcome (hash_password salt (UserCreate.password user_create)) =
       Ok (hashed_password u)
    /\ get_user_by_email db' (UserCreate.email user_create) = Some u
    /\ get_user_by_id db' new_id = Some u
    /\ (forall e, e <> UserCreate.email user_create ->
                  get_user_by_email db' e = get_user_by_email db e)
    /\ (forall i, i <> new_id -> get_user_by_id db' i = get_user_by_id db i)
    /\ (Db_keys db -> Db_keys db').
Proof.
  pose proof (oversize_false _ Hsize) as Hp.
  exists (registered_user salt new_id user_create),
         (db ++ [registered_user salt new_id user_create])%list.
  rewrite (create_user_free db salt new_id user_create Hp Hemail).
  repeat split.
  - rewrite hash_password_outcome. unfold pwd_context_hash. rewrite Hp.
    reflexivity.
  - rewrite lookup_email_after_insert, Hemail, String.eqb_refl. reflexivity.
  - rewrite lookup_id_after_insert, Hkey, Z.eqb_refl. reflexivity.
  - intros e He. rewrite lookup_email_after_insert.
    destruct (get_user_by_email db e); [reflexivity|].
    destruct (String.eqb_spec (UserCreate.email user_create) e);
      [congruence | reflexivity].
  - intros i Hi. rewrite lookup_id_after_insert.
    destruct (get_user_by_id db i); [reflexivity|].
    destruct (Z.eqb_spec new_id i); [congruence | reflexivity].
  - destruct (insert_keeps_keys db salt new_id user_create Hemail Hkey H)
      as [Hid _]. exact Hid.
  - destruct (insert_keeps_keys db salt new_id user_create Hemail Hkey H)
      as [_ Hem]. exact Hem.
Qed.

Lemma create_user_then_lookup_witness :
  exists u db',
    outcome (create_user (P := Ref.passlib) sample_db "KCl" 4
               {| UserCreate.email := "new@x.com";
                  UserCreate.password := "P@ss1234" |}) = Ok (Some (u, db'))
    /\ id u = 4
    /\ get_user_by_email db' "new@x.com" = Some u
    /\ get_user_by_id db' 4 = Some u.
Proof.
  destruct (create_user_then_lookup (P := Ref.passlib) sample_db "KCl" 4
              {| UserCreate.email := "new@x.com";
                 UserCreate.password := "P@ss1234" |})
    as (u & db' & Hc & Hi & _ & _ & _ & He & Hk & _).
  - apply Nat.leb_le. vm_compute. reflexivity.
  - reflexivity.
  - reflexivity.
  - exists u, db'. auto.
Defined.

(** X16. A second registration of an email is refused, after the
    password has been hashed. When the table already has a row with the
    email and the password is within the hasher's size cap,
    [create_user] inserts nothing (the flush fails on the unique
    constraint) and has hashed the submitted password before the insert
    was attempted. When the password is above the cap, the hasher raises
    [PasswordSizeError] and no insert is attempted at all, whether or
    not the email is taken. *)
Theorem create_user_duplicate_email
    {P : Passlib} (db : Db) (salt : string) (new_id : Z)
    (user_create : UserCreate.t) :
  ((py_len (UserCreate.password user_create) <= MAX_PASSWORD_SIZE)%nat ->
   forall u0,
     get_user_by_email db (UserCreate.email user_create) = Some u0 ->
     outcome (create_user db salt new_id user_create) = Ok None
     /\ trace (create_user db salt new_id user_create) =
        [PwdHash (UserCreate.password user_create)])
  /\ ((MAX_PASSWORD_SIZE < py_len (UserCreate.password user_create))%nat ->
      outcome (create_user db salt new_id user_create) =
      Raise PasswordSizeError).
Proof.
  split.
  - intros Hsize u0 Htaken.
    rewrite (create_user_taken db salt new_id user_create u0
               (oversize_false _ Hsize) Htaken).
    split; reflexivity.
  - intros Hsize.
    rewrite (create_user_oversize db salt new_id user_create
               (oversize_true _ Hsize)).
    reflexivity.
Qed.

Lemma create_user_duplicate_email_witness :
  outcome (create_user (P := Ref.passlib) sample_db "KCl" 4
             {| UserCreate.email := "a@x.com";
                UserCreate.password := "P@ss1234" |}) = Ok None
  /\ outcome (create_user (P := Ref.passlib) sample_db "KCl" 4
                {| UserCreate.email := "new@x.com";
                   UserCreate.password := oversize_password |}) =
     Raise PasswordSizeError.
Proof.
  split.
  - refine (proj1 (proj1 (create_user_duplicate_email (P := Ref.passlib)
                            sample_db "KCl" 4
                            {| UserCreate.email := "a@x.com";
                               UserCreate.password := "P@ss1234" |}) _ _ _)).
    + apply Nat.leb_le. vm_compute. reflexivity.
    + vm_compute. reflexivity.
  - refine (proj2 (create_user_duplicate_email (P := Ref.passlib)
                     sample_db "KCl" 4
                     {| UserCreate.email := "new@x.com";
                        UserCreate.password := oversize_password |}) _).
    apply Nat.ltb_lt. vm_compute. reflexivity.
Defined.





(** X19. [get_current_user] does not look at the active flag. For a live
    access token whose user id resolves to an inactive row it returns
    that row; only [get_current_active_user], and the logout dependency
    that repeats its check, refuse it with 403 [Inactive user account]. *)
Theorem inactive_user_still_authenticates
    {J : Jose} {Py : Pydantic} (settings : Settings) (HJ : jose_contract J)
    (db : Db) (t now : datetime) (s : Z) (u : User)
    (Hlive : now <= t + TTL settings Access)
    (Hu : get_user_by_id db s = Some u)
    (Hinactive : is_active u = false) :
  get_current_user settings db now (create_access_token settings t s) = Ok u
  /\ get_current_active_user u =
     Raise (HTTPError (HTTPException HTTP_403_FORBIDDEN
                         "Inactive user account" None))
  /\ get_current_user_for_logout settings db now
       (create_access_token settings t s) =
     Raise (HTTPError (HTTPException HTTP_403_FORBIDDEN
                         "Inactive user account" None)).
Proof.
  pose proof (get_current_user_minted settings HJ db _ _ _ _ Hlive Hu) as Hg.
  split; [exact Hg|]. split.
  - unfold get_current_active_user. rewrite Hinactive. reflexivity.
  - rewrite get_current_user_for_logout_eq, Hg. simpl.
    unfold get_current_active_user. rewrite Hinactive. reflexivity.
Qed.

Lemma inactive_user_still_authenticates_witness :
  get_current_user (J := Ref.jose) (Py := Ref.pydantic) default_settings
    sample_db 60000000
    (create_access_token (J := Ref.jose) default_settings 0 2) =
  Ok {| id := 2; email := "inactive@example.com";
        hashed_password := sample_hash; is_active := false |}.
Proof.
  refine (proj1 (inactive_user_still_authenticates (J := Ref.jose)
                   (Py := Ref.pydantic) default_settings RefFacts.jose_ok
                   sample_db 0 60000000 2 _ _ _ _)).
  - unfold TTL, timedelta_minutes. simpl. lia.
  - reflexivity.
  - reflexivity.
Defined.
